(** * Model-availability state machine and request lifecycle of [model_api.py]

    A shallow embedding of the Flask service in [src/model_api.py]: the
    loader [load_model], the three handlers [root], [health] and [chat],
    and the two process-wide globals [_LLM] and [_MODEL_ERROR] they share.

    Python values are embedded as the inductive [pyval]; exceptions are
    values of an error type and the [try]/[except] blocks are written out;
    calls that leave the module (the JSON parser behind
    [request.get_json], the engine's [create_chat_completion], the [Llama]
    constructor) are logged in a trace of events so that "is never called"
    and "is called with these arguments" are statements about a list.
    Console output is written to a stdout that encodes text as UTF-8:
    the fixed texts of the module, the configured path and the messages
    of exceptions are taken to be printable. What is kept of a [print]
    line is what can make it raise: the evaluation of the printed
    expression, and the encoding of the one printed text that comes from
    a request, the excerpt of [mensaje] at line 131. *)

From Stdlib Require Import ZArith QArith String Ascii List Bool Lia.
Import ListNotations.
Local Open Scope list_scope.
Local Open Scope string_scope.
Local Open Scope Z_scope.
Local Set Warnings "-register-all".

(* ================================================================== *)
(** ** Python values *)

(** A Python [float]. A finite float is represented by the rational
    number it denotes; no arithmetic is ever performed on one here, the
    service only truncates ([int]) or forwards them. *)
Inductive pyfloat : Type :=
| Float (q : Q)
| Inf (negative : bool)
| NaN.

(** The values that travel through the handlers: what a JSON document
    parses to, and what [jsonify] serialises. A [dict] keeps its
    insertion order; its keys are strings. *)
Inductive pyval : Type :=
| PNone
| PBool (b : bool)
| PInt (z : Z)
| PFloat (f : pyfloat)
| PStr (s : string)
| PList (l : list pyval)
| PDict (d : list (string * pyval)).

(** [type(v).__name__] *)
Definition type_name (v : pyval) : string :=
  match v with
  | PNone => "NoneType"
  | PBool _ => "bool"
  | PInt _ => "int"
  | PFloat _ => "float"
  | PStr _ => "str"
  | PList _ => "list"
  | PDict _ => "dict"
  end.

(** Truth value of an object, as [if v:] and [v or w] test it. *)
Definition truthy (v : pyval) : bool :=
  match v with
  | PNone => false
  | PBool b => b
  | PInt z => negb (z =? 0)
  | PFloat (Float q) => negb (Qnum q =? 0)
  | PFloat _ => true
  | PStr s => negb (String.eqb s "")
  | PList l => match l with [] => false | _ => true end
  | PDict d => match d with [] => false | _ => true end
  end.

(** [a or b] *)
Definition py_or (a b : pyval) : pyval := if truthy a then a else b.

(** Key lookup in a [dict]. *)
Fixpoint lookup (k : string) (d : list (string * pyval)) : option pyval :=
  match d with
  | [] => None
  | (k', v) :: rest => if String.eqb k k' then Some v else lookup k rest
  end.

(** A field of a JSON object, for reading responses. *)
Definition field (k : string) (v : pyval) : option pyval :=
  match v with
  | PDict d => lookup k d
  | _ => None
  end.

(** ** Exceptions *)

(** The ways a builtin operation used by the handlers can fail. The
    class of the exception raised is fixed by the language ([fault_class]);
    its message text is the interpreter's and is left to the platform. *)
Inductive Fault : Type :=
| NoAttribute (v : pyval) (attr : string)
| NotSubscriptable (v : pyval)
| BadIndex (v : pyval) (idx : pyval)
| MissingKey (k : pyval)
| IndexOutOfRange (v : pyval)
| SliceOfDict
| IntBadArgument (v : pyval)
| IntBadLiteral (s : string)
| IntOfNaN
| IntOfInfinity
| NoLen (v : pyval)
| NotEncodable (text : string).

(** An instance of [Exception]: raised by a builtin, or by a library
    (Flask, llama_cpp) with a class name and a message. *)
Inductive exn : Type :=
| Builtin (f : Fault)
| Raised (cls : string) (msg : string).

Inductive result (A : Type) : Type :=
| Ok (a : A)
| Raise (e : exn).
Arguments Ok {A} a.
Arguments Raise {A} e.

(** ** The engine and the platform *)

(** An initialised inference engine, seen through the one method the
    service calls: [create_chat_completion(messages=, temperature=,
    max_tokens=)]. *)
Record Llama : Type := {
  create_chat_completion : pyval -> pyfloat -> Z -> result pyval
}.

(** Everything the module imports or asks of its host. *)
Record Platform : Type := {
  (** the JSON parser behind [request.get_json(force=True)];
      [None] when the body is not a JSON document *)
  json_loads : string -> option pyval;
  (** [str()] of the [BadRequest] that [get_json] raises then *)
  bad_request_text : string;
  (** [json.dumps(v, ensure_ascii=False)] *)
  json_dumps : pyval -> string;
  (** [int(s)] on text; [None] when [s] is not an integer literal *)
  int_of_text : string -> option Z;
  (** [str(e)] for an exception raised by a builtin *)
  fault_text : Fault -> string;
  (** whether [slice] objects are hashable (CPython 3.12 and later) *)
  slice_hashable : bool;
  (** [Path(p).exists()]: the answer, or the [OSError] of a path that
      cannot be examined (permission denied, name too long) *)
  path_exists : string -> result bool;
  (** [Llama(model_path=, n_ctx=, n_threads=)] *)
  new_Llama : string -> Z -> Z -> result Llama
}.

(** [type(e).__name__] *)
Definition fault_class (pf : Platform) (f : Fault) : string :=
  match f with
  | NoAttribute _ _ => "AttributeError"
  | NotSubscriptable _ => "TypeError"
  | BadIndex _ _ => "TypeError"
  | MissingKey _ => "KeyError"
  | IndexOutOfRange _ => "IndexError"
  | SliceOfDict => if slice_hashable pf then "KeyError" else "TypeError"
  | IntBadArgument _ => "TypeError"
  | IntBadLiteral _ => "ValueError"
  | IntOfNaN => "ValueError"
  | IntOfInfinity => "OverflowError"
  | NoLen _ => "TypeError"
  | NotEncodable _ => "UnicodeEncodeError"
  end.

Definition exn_class (pf : Platform) (e : exn) : string :=
  match e with
  | Builtin f => fault_class pf f
  | Raised cls _ => cls
  end.

(** [str(e)] *)
Definition str (pf : Platform) (e : exn) : string :=
  match e with
  | Builtin f => fault_text pf f
  | Raised _ msg => msg
  end.

(** ** Builtin operations *)

(** [d.get(k, default)] on the entries of a [dict]. *)
Definition get_default (d : list (string * pyval)) (k : string) (default : pyval) : pyval :=
  match lookup k d with
  | Some x => x
  | None => default
  end.

(** [v.get(k, default)]: only a [dict] has the method. *)
Definition get (v : pyval) (k : string) (default : pyval) : result pyval :=
  match v with
  | PDict d => Ok (get_default d k default)
  | _ => Raise (Builtin (NoAttribute v "get"))
  end.

(** [int(v)] *)
Definition int (pf : Platform) (v : pyval) : result Z :=
  match v with
  | PInt z => Ok z
  | PBool b => Ok (if b then 1 else 0)
  | PFloat (Float q) => Ok (Z.quot (Qnum q) (Zpos (Qden q)))
  | PFloat (Inf _) => Raise (Builtin IntOfInfinity)
  | PFloat NaN => Raise (Builtin IntOfNaN)
  | PStr s =>
      match int_of_text pf s with
      | Some z => Ok z
      | None => Raise (Builtin (IntBadLiteral s))
      end
  | _ => Raise (Builtin (IntBadArgument v))
  end.

(** A byte that continues a UTF-8 encoded character. *)
Definition continuation (c : ascii) : bool :=
  let n := Z.of_nat (nat_of_ascii c) in (128 <=? n) && (n <? 192).

(** The first [n] characters of a UTF-8 encoded text. *)
Fixpoint str_take (n : nat) (s : string) : string :=
  match s with
  | EmptyString => EmptyString
  | String c rest =>
      if continuation c then String c (str_take n rest)
      else match n with
           | O => EmptyString
           | S m => String c (str_take m rest)
           end
  end.

(** [v[:n]] *)
Definition slice_to (v : pyval) (n : nat) : result pyval :=
  match v with
  | PStr s => Ok (PStr (str_take n s))
  | PList l => Ok (PList (firstn n l))
  | PDict _ => Raise (Builtin SliceOfDict)
  | _ => Raise (Builtin (NotSubscriptable v))
  end.

(** [v[k]] for a text key [k] *)
Definition getitem (v : pyval) (k : string) : result pyval :=
  match v with
  | PDict d =>
      match lookup k d with
      | Some x => Ok x
      | None => Raise (Builtin (MissingKey (PStr k)))
      end
  | PList _ | PStr _ => Raise (Builtin (BadIndex v (PStr k)))
  | _ => Raise (Builtin (NotSubscriptable v))
  end.

(** [v[0]] *)
Definition getitem0 (v : pyval) : result pyval :=
  match v with
  | PList (x :: _) => Ok x
  | PList [] => Raise (Builtin (IndexOutOfRange v))
  | PStr EmptyString => Raise (Builtin (IndexOutOfRange v))
  | PStr s => Ok (PStr (str_take 1 s))
  | PDict _ => Raise (Builtin (MissingKey (PInt 0)))
  | _ => Raise (Builtin (NotSubscriptable v))
  end.

(** The number of characters of a UTF-8 encoded text. *)
Fixpoint str_len (s : string) : nat :=
  match s with
  | EmptyString => O
  | String c rest => if continuation c then str_len rest else S (str_len rest)
  end.

(** [len(v)] *)
Definition len (v : pyval) : result Z :=
  match v with
  | PStr s => Ok (Z.of_nat (str_len s))
  | PList l => Ok (Z.of_nat (List.length l))
  | PDict d => Ok (Z.of_nat (List.length d))
  | _ => Raise (Builtin (NoLen v))
  end.

(** ** Printing

    A text is embedded as its UTF-8 bytes. A lone surrogate, which the
    JSON parser produces from an escape such as [\ud83d], has no UTF-8
    encoding; it is embedded as the three bytes of its generalised
    encoding, the first of which is 237 and the second between 160 and
    191. *)

(** The second byte of an encoded surrogate. *)
Definition surrogate_second (c : ascii) : bool :=
  let n := Z.of_nat (nat_of_ascii c) in (160 <=? n) && (n <=? 191).

(** The text holds a lone surrogate. *)
Fixpoint has_surrogate (s : string) : bool :=
  match s with
  | EmptyString => false
  | String a rest =>
      if Ascii.eqb a "237" then
        match rest with
        | String b _ => if surrogate_second b then true else has_surrogate rest
        | EmptyString => false
        end
      else has_surrogate rest
  end.

(** [print(text)] on a UTF-8 stdout. *)
Definition py_print (text : string) : result unit :=
  if has_surrogate text then Raise (Builtin (NotEncodable text)) else Ok tt.

(** [print(f"📨 Request: {excerpt}...")], line 131. A text is printed as
    it is; the [repr] of a list escapes what cannot be encoded. *)
Definition print_request (excerpt : pyval) : result unit :=
  match excerpt with
  | PStr s => py_print ("📨 Request: " ++ s ++ "...")
  | _ => Ok tt
  end.

(* ================================================================== *)
(** ** Effects: a trace of outside calls, and exceptions *)

(** The calls that leave the module. *)
Inductive Event : Type :=
| EvLlamaInit (model_path : string) (n_ctx n_threads : Z)
| EvGetJson (data : string)
| EvChatCompletion (messages : pyval) (temperature : pyfloat) (max_tokens : Z).

(** A computation that logs events and either returns or raises. *)
Definition M (A : Type) : Type := (list Event * result A)%type.

Definition ret {A : Type} (a : A) : M A := ([], Ok a).

Definition lift {A : Type} (r : result A) : M A := ([], r).

Definition call {A : Type} (ev : Event) (r : result A) : M A := ([ev], r).

Definition bind {A B : Type} (m : M A) (k : A -> M B) : M B :=
  match m with
  | (t, Ok a) => let (t', r) := k a in ((t ++ t')%list, r)
  | (t, Raise e) => (t, Raise e)
  end.

(** [try: m  except Exception as e: handler e], for a handler that
    returns. *)
Definition try_except {A : Type} (m : M A) (handler : exn -> A) : list Event * A :=
  match m with
  | (t, Ok a) => (t, a)
  | (t, Raise e) => (t, handler e)
  end.

Notation "x <- m ;; k" := (bind m (fun x => k))
  (at level 61, m at next level, right associativity).

(* ================================================================== *)
(** ** The service *)

(** An HTTP response: [jsonify(body), status]. *)
Record Response : Type := {
  status : Z;
  body : pyval
}.

Definition jsonify (d : list (string * pyval)) : pyval := PDict d.

(** The module-level configuration constants, as resolved at import. *)
Record Config : Type := {
  MODEL_PATH : string;
  N_CTX : Z;
  N_THREADS : Z
}.

(** The module-level globals ("Estado global"). *)
Record State : Type := {
  _LLM : option Llama;
  _MODEL_ERROR : option string
}.

(** The globals as the module body leaves them: both [None]. *)
Definition initial_state : State :=
  {| _LLM := None; _MODEL_ERROR := None |}.

(** [if _MODEL_ERROR:] is the truth value of [None] or of a text. *)
Definition error_set (st : State) : bool :=
  match _MODEL_ERROR st with
  | None => false
  | Some msg => truthy (PStr msg)
  end.

(** [_LLM is not None] *)
Definition llm_is_not_None (st : State) : bool :=
  match _LLM st with
  | None => false
  | Some _ => true
  end.

(** The [temperature=0.2] of the completion call. *)
Definition temperature : pyfloat := Float 0.2.

Definition default_system : string := "Eres un asistente agrónomo.".

Section Service.

Variable pf : Platform.
Variable cfg : Config.

(** [load_model()]: the trace, what the call returned or raised, and
    the globals after the call. The test of line 36 is outside the
    [try]: an exception of [exists()] leaves the function, with the
    globals as they were. *)
Definition load_model (st : State) : list Event * (result bool * State) :=
  match path_exists pf (MODEL_PATH cfg) with
  | Raise e => ([], (Raise e, st))
  | Ok present =>
      if negb present then
        let error_msg := "❌ ERROR: Modelo NO encontrado en: " ++ MODEL_PATH cfg in
        ([], (Ok false, {| _LLM := _LLM st; _MODEL_ERROR := Some error_msg |}))
      else
        let init := EvLlamaInit (MODEL_PATH cfg) (N_CTX cfg) (N_THREADS cfg) in
        match new_Llama pf (MODEL_PATH cfg) (N_CTX cfg) (N_THREADS cfg) with
        | Ok llm =>
            ([init],
             (Ok true, {| _LLM := Some llm; _MODEL_ERROR := _MODEL_ERROR st |}))
        | Raise e =>
            let error_msg := "❌ ERROR cargando modelo: " ++ str pf e in
            ([init],
             (Ok false, {| _LLM := _LLM st; _MODEL_ERROR := Some error_msg |}))
        end
  end.

(** The globals after [load_model()]. *)
Definition loaded (st : State) : State := snd (snd (load_model st)).

(** [GET /] *)
Definition root (st : State) : Response :=
  if error_set st then
    {| status := 500;
       body := jsonify
         [ ("service", PStr "Agricultural LLM API");
           ("status", PStr "error");
           ("error", match _MODEL_ERROR st with Some m => PStr m | None => PNone end);
           ("model_loaded", PBool false) ] |}
  else
    {| status := 200;
       body := jsonify
         [ ("service", PStr "Agricultural LLM API");
           ("version", PStr "1.0.0");
           ("status", PStr "ready");
           ("model_loaded", PBool (llm_is_not_None st));
           ("model_path", PStr (MODEL_PATH cfg));
           ("endpoints", PDict [ ("health", PStr "/health");
                                 ("chat", PStr "/chat (POST)") ]) ] |}.

(** [GET /health]; [now] is [datetime.now().isoformat()]. *)
Definition health (st : State) (now : string) : Response :=
  if error_set st then
    {| status := 500;
       body := jsonify
         [ ("status", PStr "error");
           ("error", match _MODEL_ERROR st with Some m => PStr m | None => PNone end);
           ("model_loaded", PBool false) ] |}
  else
    {| status := 200;
       body := jsonify
         [ ("status", PStr "ok");
           ("timestamp", PStr now);
           ("model_loaded", PBool (llm_is_not_None st));
           ("model_path", PStr (MODEL_PATH cfg)) ] |}.

(** [request.get_json(force=True)] on a request body. *)
Definition get_json (data : string) : M pyval :=
  call (EvGetJson data)
       (match json_loads pf data with
        | Some v => Ok v
        | None => Raise (Raised "BadRequest" (bad_request_text pf))
        end).

(** The [messages] list of the completion call. *)
Definition messages (system_prompt context : pyval) : pyval :=
  PList [ PDict [ ("role", PStr "system"); ("content", system_prompt) ];
          PDict [ ("role", PStr "user");
                  ("content", PStr (json_dumps pf context)) ] ].

(** The body of the [try] block of [chat]. *)
Definition chat_try (llm : Llama) (now : string) (data : string) : M Response :=
  payload <- get_json data ;;
  system_prompt <- lift (get payload "system" (PStr default_system)) ;;
  context <- lift (get payload "context" (PDict [])) ;;
  requested <- lift (get payload "max_tokens" (PInt 300)) ;;
  max_tokens <- lift (int pf requested) ;;
  mensaje <- lift (get context "mensaje" (PStr "")) ;;
  excerpt <- lift (slice_to mensaje 50) ;;
  _ <- lift (print_request excerpt) ;;
  let msgs := messages system_prompt context in
  response <- call (EvChatCompletion msgs temperature max_tokens)
                   (create_chat_completion llm msgs temperature max_tokens) ;;
  choices <- lift (getitem response "choices") ;;
  first <- lift (getitem0 choices) ;;
  message <- lift (getitem first "message") ;;
  c <- lift (getitem message "content") ;;
  let content := py_or c (PStr "") in
  _ <- lift (len content) ;;
  ret {| status := 200;
         body := jsonify [ ("content", content); ("timestamp", PStr now) ] |}.

(** The [except Exception as e] clause of [chat]. *)
Definition chat_except (e : exn) : Response :=
  let error_msg := "Error procesando request: " ++ str pf e in
  {| status := 500;
     body := jsonify [ ("error", PStr error_msg);
                       ("type", PStr (exn_class pf e)) ] |}.

(** [POST /chat] with request body [data]. *)
Definition chat (st : State) (now : string) (data : string) : list Event * Response :=
  if error_set st then
    ([], {| status := 503;
            body := jsonify
              [ ("error", PStr "Model not available");
                ("details", match _MODEL_ERROR st with Some m => PStr m | None => PNone end) ] |})
  else
    match _LLM st with
    | None =>
        ([], {| status := 503;
                body := jsonify [ ("error", PStr "Model not loaded");
                                  ("details", PStr "LLM instance is None") ] |})
    | Some llm => try_except (chat_try llm now data) chat_except
    end.

(** A request and the routing of the application. *)
Inductive Request : Type :=
| GET_root
| GET_health
| POST_chat (data : string).

Definition handle (st : State) (now : string) (r : Request) : list Event * Response :=
  match r with
  | GET_root => ([], root st)
  | GET_health => ([], health st now)
  | POST_chat data => chat st now data
  end.

(** The server answering requests one after the other, each with the
    clock reading at its arrival. No handler writes a global, so every
    request is served in the same [State]. *)
Fixpoint serve (st : State) (rs : list (string * Request)) : list Response :=
  match rs with
  | [] => []
  | (now, r) :: rest => snd (handle st now r) :: serve st rest
  end.

(** The states of the globals the module can be in: as initialised,
    or after calls of [load_model]. *)
Inductive reachable : State -> Prop :=
| reach_initial : reachable initial_state
| reach_load (st : State) : reachable st -> reachable (loaded st).

End Service.

(* ================================================================== *)
(** ** Views of [chat_try] used in the proofs

    [chat_try] above follows the source line by line. The three
    definitions below name its phases; [chat_try_view] proves that they
    compose to the same function. *)

(** Lines 126-131: the locals [system_prompt], [context] and
    [max_tokens] read from the payload, when none of the reads raises
    and the excerpt of [mensaje] is printed. *)
Definition locals (pf : Platform) (payload : pyval) : result (pyval * pyval * Z) :=
  match get payload "system" (PStr default_system) with
  | Raise e => Raise e
  | Ok system_prompt =>
  match get payload "context" (PDict []) with
  | Raise e => Raise e
  | Ok context =>
  match get payload "max_tokens" (PInt 300) with
  | Raise e => Raise e
  | Ok requested =>
  match int pf requested with
  | Raise e => Raise e
  | Ok max_tokens =>
  match get context "mensaje" (PStr "") with
  | Raise e => Raise e
  | Ok mensaje =>
  match slice_to mensaje 50 with
  | Raise e => Raise e
  | Ok excerpt =>
  match print_request excerpt with
  | Raise e => Raise e
  | Ok _ => Ok (system_prompt, context, max_tokens)
  end end end end end end end.

(** [response["choices"][0]["message"]] *)
Definition first_message (response : pyval) : result pyval :=
  match getitem response "choices" with
  | Raise e => Raise e
  | Ok choices =>
  match getitem0 choices with
  | Raise e => Raise e
  | Ok first => getitem first "message"
  end end.

(** Lines 147-153: the response built from the engine's answer. *)
Definition respond (now : string) (response : pyval) : result Response :=
  match first_message response with
  | Raise e => Raise e
  | Ok message =>
  match getitem message "content" with
  | Raise e => Raise e
  | Ok c =>
  match len (py_or c (PStr "")) with
  | Raise e => Raise e
  | Ok _ => Ok {| status := 200;
                  body := jsonify [ ("content", py_or c (PStr ""));
                                    ("timestamp", PStr now) ] |}
  end end end.

(** The success response of [chat]. *)
Definition chat_ok (content : pyval) (now : string) : Response :=
  {| status := 200;
     body := jsonify [ ("content", content); ("timestamp", PStr now) ] |}.


(** A [mensaje] the log line of line 131 can show: a text whose first 50
    characters hold no lone surrogate, or a list. *)
Definition loggable (m : pyval) : Prop :=
  (exists s, m = PStr s /\ has_surrogate (str_take 50 s) = false) \/
  (exists l, m = PList l).

(** The response of the [except] clause, with its two fields. *)
Definition processing_error (pf : Platform) (e : exn) : Response :=
  {| status := 500;
     body := jsonify [ ("error", PStr ("Error procesando request: " ++ str pf e));
                       ("type", PStr (exn_class pf e)) ] |}.

(** The two 503 responses of [chat]: a load error is recorded, and the
    defensive branch for a missing handle. *)
Definition model_unavailable (details : string) : Response :=
  {| status := 503;
     body := jsonify [ ("error", PStr "Model not available");
                       ("details", PStr details) ] |}.

Definition model_not_loaded : Response :=
  {| status := 503;
     body := jsonify [ ("error", PStr "Model not loaded");
                       ("details", PStr "LLM instance is None") ] |}.

(** Exactly one of the two globals is set. *)
Definition exactly_one_set (st : State) : Prop :=
  (_LLM st <> None /\ _MODEL_ERROR st = None) \/
  (_LLM st = None /\ _MODEL_ERROR st <> None).

(** [needle] occurs in [text]. *)
Definition contains (text needle : string) : Prop :=
  exists before after, text = before ++ needle ++ after.

(* ================================================================== *)
(** ** Fixtures: a small platform, engines and states to run the model on *)

(** A parser that knows three documents. *)
Definition toy_loads (data : string) : option pyval :=
  if String.eqb data "{}" then Some (PDict [])
  else if String.eqb data "null" then Some PNone
  else if String.eqb data "[]" then Some (PList [])
  else None.

(** Message texts in the wording of CPython. *)
Definition toy_fault_text (f : Fault) : string :=
  match f with
  | NoAttribute v attr =>
      "'" ++ type_name v ++ "' object has no attribute '" ++ attr ++ "'"
  | NotSubscriptable v => "'" ++ type_name v ++ "' object is not subscriptable"
  | BadIndex v _ => type_name v ++ " indices must be integers"
  | MissingKey (PStr k) => "'" ++ k ++ "'"
  | MissingKey _ => "0"
  | IndexOutOfRange v => type_name v ++ " index out of range"
  | SliceOfDict => "slice(None, 50, None)"
  | IntBadArgument v =>
      "int() argument must be a string, a bytes-like object or a real number, not '"
      ++ type_name v ++ "'"
  | IntBadLiteral s => "invalid literal for int() with base 10: '" ++ s ++ "'"
  | IntOfNaN => "cannot convert float NaN to integer"
  | IntOfInfinity => "cannot convert float infinity to integer"
  | NoLen v => "object of type '" ++ type_name v ++ "' has no len()"
  | NotEncodable _ => "'utf-8' codec can't encode character: surrogates not allowed"
  end.

Definition toy_platform (loads : string -> option pyval)
  (file_present : bool) (ctor : result Llama) : Platform :=
  {| json_loads := loads;
     bad_request_text := "400 Bad Request: The browser (or proxy) sent a request that this server could not understand.";
     json_dumps := fun v => match v with PDict [] => "{}" | _ => "{...}" end;
     int_of_text := fun _ => None;
     fault_text := toy_fault_text;
     slice_hashable := true;
     path_exists := fun _ => Ok file_present;
     new_Llama := fun _ _ _ => ctor |}.

Definition toy_cfg : Config :=
  {| MODEL_PATH := "/app/models/qwen2.5-3b-instruct-q4_k_m.gguf";
     N_CTX := 2048;
     N_THREADS := 1 |}.

(** An engine that answers every call the same way. *)
Definition stub_llm (answer : result pyval) : Llama :=
  {| create_chat_completion := fun _ _ _ => answer |}.

(** A completion response with one choice whose message is [message]. *)
Definition completion_of (message : list (string * pyval)) : pyval :=
  PDict [ ("id", PStr "chatcmpl-1");
          ("choices", PList [ PDict [ ("index", PInt 0);
                                      ("message", PDict message);
                                      ("finish_reason", PStr "stop") ] ]) ].

Definition riega : pyval :=
  completion_of [ ("role", PStr "assistant");
                  ("content", PStr "Riega el cultivo cada 3 días.") ].

Definition no_content : pyval :=
  completion_of [ ("role", PStr "assistant") ].

(** The platform with the model file missing, and the one where the
    engine initialises to a stub answering [riega]. *)
Definition pf_missing : Platform :=
  toy_platform toy_loads false (Raise (Raised "RuntimeError" "unused")).

Definition pf_ready : Platform :=
  toy_platform toy_loads true (Ok (stub_llm (Ok riega))).

(** The globals with a handle whose engine answers [answer]. *)
Definition ready_state (answer : result pyval) : State :=
  {| _LLM := Some (stub_llm answer); _MODEL_ERROR := None |}.

Definition t0 : string := "2026-01-01T00:00:00".

(* ================================================================== *)
(** ** Configuration and startup

    The module-level constants (lines 14-19) and the [__main__] block
    (lines 164-181), for a process started as a script. *)

(** The process environment, [os.environ]. *)
Definition Environ : Type := string -> option string.

(** [os.getenv(key, default)] *)
Definition getenv (env : Environ) (key : string) (default : pyval) : pyval :=
  match env key with
  | Some v => PStr v
  | None => default
  end.

(** [os.getenv(key, default)] for a text [default]. *)
Definition getenv_text (env : Environ) (key default : string) : string :=
  match env key with
  | Some v => v
  | None => default
  end.

(** The constants [MODEL_PATH], [N_CTX] and [N_THREADS], in the order the
    module body evaluates them. [default_path] is the value of
    [str(BASE_DIR / "models/qwen2.5-3b-instruct-q4_k_m.gguf")]. *)
Definition module_config (pf : Platform) (env : Environ) (default_path : string)
  : result Config :=
  let model_path := getenv_text env "LOCAL_MODEL_PATH" default_path in
  match int pf (getenv env "N_CTX" (PStr "2048")) with
  | Raise e => Raise e
  | Ok n_ctx =>
      match int pf (getenv env "N_THREADS" (PStr "1")) with
      | Raise e => Raise e
      | Ok n_threads =>
          Ok {| MODEL_PATH := model_path; N_CTX := n_ctx; N_THREADS := n_threads |}
      end
  end.

(** How the script ends up: inside [app.run(host=, port=, debug=False,
    use_reloader=False)] serving from the globals [st], or stopped by an
    exception nothing catches. *)
Inductive Startup : Type :=
| AppRun (host : string) (port : Z) (st : State)
| Died (e : exn).

(** The [__main__] block. Nothing catches what [load_model()] raises;
    the flag it returns only selects what is printed. *)
Definition main (pf : Platform) (cfg : Config) (env : Environ)
  : list Event * Startup :=
  match load_model pf cfg initial_state with
  | (t, (Raise e, _)) => (t, Died e)
  | (t, (Ok model_loaded, st)) =>
      match int pf (getenv env "PORT" (PInt 8080)) with
      | Ok port => (t, AppRun "0.0.0.0" port st)
      | Raise e => (t, Died e)
      end
  end.

(** [python model_api.py]: the module body, then the [__main__] block. *)
Definition program (pf : Platform) (env : Environ) (default_path : string)
  : list Event * Startup :=
  match module_config pf env default_path with
  | Raise e => ([], Died e)
  | Ok cfg => main pf cfg env
  end.

(** ** More fixtures *)


(** A platform like [pf], with another JSON parser. *)
Definition with_json_loads (pf : Platform) (loads : string -> option pyval) : Platform :=
  {| json_loads := loads;
     bad_request_text := bad_request_text pf;
     json_dumps := json_dumps pf;
     int_of_text := int_of_text pf;
     fault_text := fault_text pf;
     slice_hashable := slice_hashable pf;
     path_exists := path_exists pf;
     new_Llama := new_Llama pf |}.


(** The platform where the model file is there and the engine fails to
    initialise. *)
Definition pf_broken : Platform :=
  toy_platform toy_loads true
    (Raise (Raised "ValueError" "Failed to load model from file")).

(** A platform like [pf], on which [exists()] raises [e]. *)
Definition with_exists_raising (pf : Platform) (e : exn) : Platform :=
  {| json_loads := json_loads pf;
     bad_request_text := bad_request_text pf;
     json_dumps := json_dumps pf;
     int_of_text := int_of_text pf;
     fault_text := fault_text pf;
     slice_hashable := slice_hashable pf;
     path_exists := fun _ => Raise e;
     new_Llama := new_Llama pf |}.

(** The platform where the model path cannot be examined. *)
Definition pf_denied : Platform :=
  with_exists_raising pf_ready (Raised "PermissionError" "[Errno 13] Permission denied").


(** An environment with nothing set, and one that sets a variable. *)
Definition no_env : Environ := fun _ => None.

Definition set_env (key value : string) (env : Environ) : Environ :=
  fun k => if String.eqb k key then Some value else env k.

(** A parser for which every body is the given document. *)
Definition always (v : pyval) : string -> option pyval := fun _ => Some v.

(* ================================================================== *)
(** * Properties *)

(** ** The effect monad *)

Lemma bind_lift {A B : Type} (r : result A) (k : A -> M B) :
  bind (lift r) k = match r with Ok a => k a | Raise e => ([], Raise e) end.
Proof.
  destruct r as [a|e]; unfold bind, lift; [|reflexivity].
  destruct (k a); reflexivity.
Qed.

Lemma bind_call {A B : Type} (ev : Event) (r : result A) (k : A -> M B) :
  bind (call ev r) k =
  match r with
  | Ok a => (ev :: fst (k a), snd (k a))
  | Raise e => ([ev], Raise e)
  end.
Proof.
  destruct r as [a|e]; unfold bind, call; [|reflexivity].
  destruct (k a); reflexivity.
Qed.

(** ** [chat_try] is the composition of its phases *)

Ltac case_result :=
  match goal with
  | |- context [match ?r with Ok _ => _ | Raise _ => _ end] =>
      destruct r eqn:?; cbn [fst snd]
  end.

Lemma chat_try_view (pf : Platform) (llm : Llama) (now data : string) :
  chat_try pf llm now data =
  match json_loads pf data with
  | None => ([EvGetJson data], Raise (Raised "BadRequest" (bad_request_text pf)))
  | Some payload =>
      match locals pf payload with
      | Raise e => ([EvGetJson data], Raise e)
      | Ok (system_prompt, context, max_tokens) =>
          let msgs := messages pf system_prompt context in
          let ev := EvChatCompletion msgs temperature max_tokens in
          match create_chat_completion llm msgs temperature max_tokens with
          | Raise e => ([EvGetJson data; ev], Raise e)
          | Ok response => ([EvGetJson data; ev], respond now response)
          end
      end
  end.
Proof.
  unfold chat_try, get_json. rewrite bind_call.
  destruct (json_loads pf data) as [payload|]; [|reflexivity].
  unfold locals, respond, first_message.
  repeat (rewrite bind_lift; case_result; try reflexivity).
  rewrite bind_call. cbn zeta. case_result; [|reflexivity].
  repeat (rewrite bind_lift; case_result; try reflexivity).
Qed.

Lemma chat_ready (pf : Platform) (st : State) (llm : Llama) (now data : string) :
  error_set st = false -> _LLM st = Some llm ->
  chat pf st now data = try_except (chat_try pf llm now data) (chat_except pf).
Proof. intros Herr Hllm. unfold chat. rewrite Herr, Hllm. reflexivity. Qed.

(** ** The loader *)

Lemma append_empty (s : string) : s ++ "" = s.
Proof. induction s as [|c s IH]; cbn; [reflexivity|]. rewrite IH. reflexivity. Qed.

(** The outcomes of [load_model], one equation each. *)
Lemma load_model_eq_missing (pf : Platform) (cfg : Config) (st : State) :
  path_exists pf (MODEL_PATH cfg) = Ok false ->
  load_model pf cfg st =
  ([], (Ok false,
        {| _LLM := _LLM st;
           _MODEL_ERROR :=
             Some ("❌ ERROR: Modelo NO encontrado en: " ++ MODEL_PATH cfg) |})).
Proof. intros H. unfold load_model. rewrite H. reflexivity. Qed.

Lemma load_model_eq_raises (pf : Platform) (cfg : Config) (st : State) (e : exn) :
  path_exists pf (MODEL_PATH cfg) = Ok true ->
  new_Llama pf (MODEL_PATH cfg) (N_CTX cfg) (N_THREADS cfg) = Raise e ->
  load_model pf cfg st =
  ([EvLlamaInit (MODEL_PATH cfg) (N_CTX cfg) (N_THREADS cfg)],
   (Ok false, {| _LLM := _LLM st;
                 _MODEL_ERROR := Some ("❌ ERROR cargando modelo: " ++ str pf e) |})).
Proof. intros H H'. unfold load_model. rewrite H, H'. reflexivity. Qed.

Lemma load_model_eq_success (pf : Platform) (cfg : Config) (st : State) (llm : Llama) :
  path_exists pf (MODEL_PATH cfg) = Ok true ->
  new_Llama pf (MODEL_PATH cfg) (N_CTX cfg) (N_THREADS cfg) = Ok llm ->
  load_model pf cfg st =
  ([EvLlamaInit (MODEL_PATH cfg) (N_CTX cfg) (N_THREADS cfg)],
   (Ok true, {| _LLM := Some llm; _MODEL_ERROR := _MODEL_ERROR st |})).
Proof. intros H H'. unfold load_model. rewrite H, H'. reflexivity. Qed.

Lemma load_model_eq_exists_raises (pf : Platform) (cfg : Config) (st : State) (e : exn) :
  path_exists pf (MODEL_PATH cfg) = Raise e ->
  load_model pf cfg st = ([], (Raise e, st)).
Proof. intros H. unfold load_model. rewrite H. reflexivity. Qed.

(** A call of [load_model] that returns has one of three outcomes: an
    error text is recorded, and it is not the empty text, for the
    missing file and for the failed initialisation, or a handle is
    stored. *)
Lemma load_model_returns_cases (pf : Platform) (cfg : Config) (st : State)
    (present : bool) :
  path_exists pf (MODEL_PATH cfg) = Ok present ->
  (exists msg, truthy (PStr msg) = true /\
     snd (load_model pf cfg st) =
       (Ok false, {| _LLM := _LLM st; _MODEL_ERROR := Some msg |})) \/
  (exists llm,
     snd (load_model pf cfg st) =
       (Ok true, {| _LLM := Some llm; _MODEL_ERROR := _MODEL_ERROR st |})).
Proof.
  intros Hp. unfold load_model. rewrite Hp.
  destruct present; cbn [negb].
  - destruct (new_Llama pf (MODEL_PATH cfg) (N_CTX cfg) (N_THREADS cfg)) as [llm|e].
    + right. exists llm. reflexivity.
    + left. eexists. split; [|reflexivity]. reflexivity.
  - left. eexists. split; [|reflexivity]. reflexivity.
Qed.

(** The globals after any call of [load_model]: an error text is
    recorded, and it is not the empty text, or a handle is stored, or
    [exists()] raised and nothing changed. *)
Lemma load_model_cases (pf : Platform) (cfg : Config) (st : State) :
  (exists msg, truthy (PStr msg) = true /\
     loaded pf cfg st = {| _LLM := _LLM st; _MODEL_ERROR := Some msg |}) \/
  (exists llm,
     loaded pf cfg st = {| _LLM := Some llm; _MODEL_ERROR := _MODEL_ERROR st |}) \/
  loaded pf cfg st = st.
Proof.
  destruct (path_exists pf (MODEL_PATH cfg)) as [present|e] eqn:Hp.
  - destruct (load_model_returns_cases pf cfg st present Hp)
      as [(msg & Hmsg & Heq)|(llm & Heq)]; unfold loaded; rewrite Heq.
    + left. exists msg. split; [exact Hmsg|reflexivity].
    + right. left. exists llm. reflexivity.
  - right. right. unfold loaded.
    rewrite (load_model_eq_exists_raises pf cfg st e Hp). reflexivity.
Qed.

(** Every error text that [load_model] records is a non-empty text, so
    that [if _MODEL_ERROR:] holds exactly when an error is recorded. *)
Lemma reachable_error_truthy (pf : Platform) (cfg : Config) (st : State) :
  reachable pf cfg st ->
  forall e, _MODEL_ERROR st = Some e -> truthy (PStr e) = true.
Proof.
  induction 1 as [|st Hst IH]; intros e He.
  - discriminate He.
  - destruct (load_model_cases pf cfg st) as [[msg [Hmsg Heq]]|[[llm Heq]|Heq]];
      rewrite Heq in He; cbn in He.
    + injection He as <-. exact Hmsg.
    + apply IH. exact He.
    + apply IH. exact He.
Qed.

Lemma reachable_error_set (pf : Platform) (cfg : Config) (st : State) :
  reachable pf cfg st ->
  error_set st = match _MODEL_ERROR st with Some _ => true | None => false end.
Proof.
  intros Hr. unfold error_set.
  destruct (_MODEL_ERROR st) as [e|] eqn:He; [|reflexivity].
  exact (reachable_error_truthy pf cfg st Hr e He).
Qed.

(** C5. After [load_model()] has run on the globals as the module
    initialises them and has returned, in any of its three outcomes
    (the file is missing, the engine constructor raised, the engine
    constructor returned), exactly one of [_LLM] and [_MODEL_ERROR] is
    set: never both, never neither. *)
Theorem load_model_exactly_one (pf : Platform) (cfg : Config) (present : bool) :
  path_exists pf (MODEL_PATH cfg) = Ok present ->
  (exists flag, fst (snd (load_model pf cfg initial_state)) = Ok flag) /\
  exactly_one_set (loaded pf cfg initial_state) /\
  ~ (_LLM (loaded pf cfg initial_state) <> None /\
     _MODEL_ERROR (loaded pf cfg initial_state) <> None) /\
  ~ (_LLM (loaded pf cfg initial_state) = None /\
     _MODEL_ERROR (loaded pf cfg initial_state) = None).
Proof.
  intros Hp. unfold exactly_one_set, loaded.
  destruct (load_model_returns_cases pf cfg initial_state present Hp)
    as [(msg & _ & Heq)|(llm & Heq)]; rewrite Heq; cbn.
  - split; [exists false; reflexivity|].
    split; [right; split; [reflexivity|discriminate]|].
    split; intros [H1 H2]; [apply H1; reflexivity|discriminate H2].
  - split; [exists true; reflexivity|].
    split; [left; split; [discriminate|reflexivity]|].
    split; intros [H1 H2]; [apply H2; reflexivity|discriminate H1].
Qed.

Lemma load_model_exactly_one_witness :
  path_exists pf_broken (MODEL_PATH toy_cfg) = Ok true /\
  exactly_one_set (loaded pf_broken toy_cfg initial_state).
Proof.
  split; [reflexivity|].
  apply (load_model_exactly_one pf_broken toy_cfg true). reflexivity.
Defined.

(** C9. When the configured model file does not exist, [load_model()]
    returns [False], records the not-found error whose text ends with the
    attempted path, never calls the [Llama] constructor, and leaves
    [_LLM] as it was: unset, at startup. *)
Theorem load_model_missing_file (pf : Platform) (cfg : Config) (st : State) :
  path_exists pf (MODEL_PATH cfg) = Ok false ->
  fst (load_model pf cfg st) = [] /\
  fst (snd (load_model pf cfg st)) = Ok false /\
  _MODEL_ERROR (loaded pf cfg st) =
    Some ("❌ ERROR: Modelo NO encontrado en: " ++ MODEL_PATH cfg) /\
  (forall e, _MODEL_ERROR (loaded pf cfg st) = Some e ->
             contains e (MODEL_PATH cfg)) /\
  _LLM (loaded pf cfg st) = _LLM st /\
  _LLM (loaded pf cfg initial_state) = None.
Proof.
  intros Hmissing. unfold loaded.
  rewrite !(load_model_eq_missing pf cfg _ Hmissing). cbn.
  repeat split.
  intros e He. injection He as <-.
  exists "❌ ERROR: Modelo NO encontrado en: ", "".
  rewrite append_empty. reflexivity.
Qed.

Lemma load_model_missing_file_witness :
  path_exists pf_missing (MODEL_PATH toy_cfg) = Ok false /\
  _MODEL_ERROR (loaded pf_missing toy_cfg initial_state) =
    Some "❌ ERROR: Modelo NO encontrado en: /app/models/qwen2.5-3b-instruct-q4_k_m.gguf".
Proof.
  split; [reflexivity|].
  apply (load_model_missing_file pf_missing toy_cfg initial_state). reflexivity.
Defined.

(** ** The availability checks of the handlers *)

(** C1. While a load error is recorded, [POST /chat] answers 503 with
    the recorded text under [details], whatever the request body, and
    its trace is empty: the body is not parsed and the engine is not
    called. *)
Theorem chat_load_error_503 (pf : Platform) (cfg : Config) (st : State)
    (e now data : string) :
  reachable pf cfg st ->
  _MODEL_ERROR st = Some e ->
  chat pf st now data = ([], model_unavailable e) /\
  status (snd (chat pf st now data)) = 503 /\
  field "details" (body (snd (chat pf st now data))) = Some (PStr e).
Proof.
  intros Hr He.
  assert (Hchat : chat pf st now data = ([], model_unavailable e)).
  { unfold chat. rewrite (reachable_error_set pf cfg st Hr), He. reflexivity. }
  rewrite Hchat. repeat split.
Qed.

Lemma chat_load_error_503_witness :
  reachable pf_missing toy_cfg (loaded pf_missing toy_cfg initial_state) /\
  chat pf_missing (loaded pf_missing toy_cfg initial_state) t0 "{}" =
    ([], model_unavailable
           "❌ ERROR: Modelo NO encontrado en: /app/models/qwen2.5-3b-instruct-q4_k_m.gguf").
Proof.
  split; [apply reach_load, reach_initial|].
  apply (chat_load_error_503 pf_missing toy_cfg
           (loaded pf_missing toy_cfg initial_state)).
  - apply reach_load, reach_initial.
  - reflexivity.
Defined.

(** C7. With no load error recorded and no handle, [POST /chat] answers
    503 with the "Model not loaded" body, which is not the body of the
    model-unavailable answer, and its trace is empty: the request body
    is not parsed. *)
Theorem chat_no_handle_503 (pf : Platform) (st : State) (now data : string) :
  _MODEL_ERROR st = None ->
  _LLM st = None ->
  chat pf st now data = ([], model_not_loaded) /\
  status (snd (chat pf st now data)) = 503 /\
  forall e, snd (chat pf st now data) <> model_unavailable e.
Proof.
  intros He Hl.
  assert (Hchat : chat pf st now data = ([], model_not_loaded)).
  { unfold chat, error_set. rewrite He, Hl. reflexivity. }
  rewrite Hchat. repeat split. intros e. cbn. discriminate.
Qed.

Lemma chat_no_handle_503_witness :
  _MODEL_ERROR initial_state = None /\
  _LLM initial_state = None /\
  chat pf_ready initial_state t0 "{}" = ([], model_not_loaded).
Proof.
  split; [reflexivity|]. split; [reflexivity|].
  apply (chat_no_handle_503 pf_ready initial_state t0 "{}"); reflexivity.
Defined.

(** What [GET /health] and [GET /] compute: 500 with
    [model_loaded: false] exactly when a load error is recorded;
    otherwise 200, with [model_loaded] telling whether the handle is
    set. *)
Theorem health_root_report (pf : Platform) (cfg : Config) (st : State)
    (now : string) (r : Response) :
  reachable pf cfg st ->
  r = health cfg st now \/ r = root cfg st ->
  (status r = 500 <-> _MODEL_ERROR st <> None) /\
  (_MODEL_ERROR st <> None ->
     status r = 500 /\ field "model_loaded" (body r) = Some (PBool false)) /\
  (_MODEL_ERROR st = None ->
     status r = 200 /\
     field "model_loaded" (body r) = Some (PBool (llm_is_not_None st))).
Proof.
  intros Hr Hor.
  assert (Herr := reachable_error_set pf cfg st Hr).
  destruct (_MODEL_ERROR st) as [e|] eqn:He.
  - assert (status r = 500 /\ field "model_loaded" (body r) = Some (PBool false))
      as [Hs Hm].
    { destruct Hor as [-> | ->]; unfold health, root; rewrite Herr; split; reflexivity. }
    split; [split; [discriminate|intros _; exact Hs]|].
    split; [intros _; split; assumption|discriminate].
  - assert (status r = 200 /\
            field "model_loaded" (body r) = Some (PBool (llm_is_not_None st)))
      as [Hs Hm].
    { destruct Hor as [-> | ->]; unfold health, root; rewrite Herr; split; reflexivity. }
    split; [split; [rewrite Hs; discriminate|intros H; contradiction H; reflexivity]|].
    split; [intros H; contradiction H; reflexivity|intros _; split; assumption].
Qed.

Lemma health_root_report_witness :
  reachable pf_ready toy_cfg (loaded pf_ready toy_cfg initial_state) /\
  status (health toy_cfg (loaded pf_ready toy_cfg initial_state) t0) = 200 /\
  field "model_loaded" (body (health toy_cfg (loaded pf_ready toy_cfg initial_state) t0))
    = Some (PBool true).
Proof.
  split; [apply reach_load, reach_initial|].
  apply (health_root_report pf_ready toy_cfg
           (loaded pf_ready toy_cfg initial_state) t0
           (health toy_cfg (loaded pf_ready toy_cfg initial_state) t0)).
  - apply reach_load, reach_initial.
  - left. reflexivity.
  - reflexivity.
Defined.

(** C2. Where neither global is set, no load error is recorded and
    there is no model: [/health] and [/] answer 200, [/health] with
    status "ok", and report [model_loaded: false], not [true]; in the
    same state [/chat] answers 503. *)
Lemma health_root_unloaded_false :
  _MODEL_ERROR initial_state = None /\
  _LLM initial_state = None /\
  status (health toy_cfg initial_state t0) = 200 /\
  field "status" (body (health toy_cfg initial_state t0)) = Some (PStr "ok") /\
  field "model_loaded" (body (health toy_cfg initial_state t0)) = Some (PBool false) /\
  field "model_loaded" (body (health toy_cfg initial_state t0)) <> Some (PBool true) /\
  status (root toy_cfg initial_state) = 200 /\
  field "model_loaded" (body (root toy_cfg initial_state)) = Some (PBool false) /\
  field "model_loaded" (body (root toy_cfg initial_state)) <> Some (PBool true) /\
  status (snd (chat pf_ready initial_state t0 "{}")) = 503.
Proof. cbn. repeat split; discriminate. Qed.

(** ** The request lifecycle of [chat] *)

(** With a handle and no error, [chat] is one of four things: the parse
    failed, reading the payload raised, the engine raised, or the engine
    answered and the answer was read. *)
Lemma chat_cases (pf : Platform) (st : State) (llm : Llama) (now data : string) :
  error_set st = false -> _LLM st = Some llm ->
  chat pf st now data =
  match json_loads pf data with
  | None =>
      ([EvGetJson data],
       processing_error pf (Raised "BadRequest" (bad_request_text pf)))
  | Some payload =>
      match locals pf payload with
      | Raise e => ([EvGetJson data], processing_error pf e)
      | Ok (system_prompt, context, max_tokens) =>
          let msgs := messages pf system_prompt context in
          ([EvGetJson data; EvChatCompletion msgs temperature max_tokens],
           match create_chat_completion llm msgs temperature max_tokens with
           | Raise e => processing_error pf e
           | Ok response =>
               match respond now response with
               | Ok r => r
               | Raise e => processing_error pf e
               end
           end)
      end
  end.
Proof.
  intros Herr Hllm. rewrite (chat_ready pf st llm now data Herr Hllm).
  rewrite chat_try_view. unfold try_except.
  destruct (json_loads pf data) as [payload|]; [|reflexivity].
  destruct (locals pf payload) as [[[sp ctx] mt]|e]; [|reflexivity].
  cbn zeta.
  destruct (create_chat_completion llm (messages pf sp ctx) temperature mt)
    as [response|e]; [|reflexivity].
  destruct (respond now response); reflexivity.
Qed.

(** Without a handle, or with an error, nothing is logged. *)
Lemma chat_trace_nonempty (pf : Platform) (st : State) (now data : string) (ev : Event) :
  In ev (fst (chat pf st now data)) ->
  error_set st = false /\ exists llm, _LLM st = Some llm.
Proof.
  unfold chat. destruct (error_set st); [intros []|].
  destruct (_LLM st) as [llm|]; [|intros []].
  intros _. split; [reflexivity|]. exists llm. reflexivity.
Qed.

(** What [locals] returns, when it returns. *)
Lemma locals_inv (pf : Platform) (payload system_prompt context : pyval) (max_tokens : Z) :
  locals pf payload = Ok (system_prompt, context, max_tokens) ->
  exists d dc,
    payload = PDict d /\
    system_prompt = get_default d "system" (PStr default_system) /\
    context = get_default d "context" (PDict []) /\
    context = PDict dc /\
    int pf (get_default d "max_tokens" (PInt 300)) = Ok max_tokens.
Proof.
  unfold locals. destruct payload as [| | | | | |d]; try discriminate. cbn [get].
  destruct (int pf (get_default d "max_tokens" (PInt 300))) as [mt|e] eqn:Hint;
    [|discriminate].
  destruct (get_default d "context" (PDict [])) as [| | | | | |dc] eqn:Hctx;
    try discriminate. cbn [get].
  destruct (slice_to (get_default dc "mensaje" (PStr "")) 50) as [excerpt|e];
    [|discriminate].
  destruct (print_request excerpt); [|discriminate].
  intros H. injection H as <- <- <-.
  exists d, dc. repeat split; [symmetry; exact Hctx|exact Hint].
Qed.


(** The three dots that end the log line do not make a surrogate. *)
Lemma has_surrogate_dots (s : string) : has_surrogate (s ++ "...") = has_surrogate s.
Proof.
  induction s as [|a rest IH]; [reflexivity|].
  cbn [append has_surrogate]. destruct (Ascii.eqb a "237"); [|exact IH].
  destruct rest as [|b rest']; [reflexivity|].
  cbn [append]. destruct (surrogate_second b); [reflexivity|exact IH].
Qed.

(** The log line of a text excerpt is printed exactly when the excerpt
    holds no lone surrogate. *)
Lemma print_request_text (s : string) :
  print_request (PStr s) =
  if has_surrogate s
  then Raise (Builtin (NotEncodable ("📨 Request: " ++ s ++ "...")))
  else Ok tt.
Proof.
  unfold print_request, py_print.
  assert (H : has_surrogate ("📨 Request: " ++ s ++ "...") = has_surrogate s).
  { rewrite <- (has_surrogate_dots s). reflexivity. }
  rewrite H. reflexivity.
Qed.

(** [locals] returns when the fields that are present have the shape the
    handler expects of them: [context] a mapping whose [mensaje] can be
    logged, [max_tokens] an integer. *)
Lemma locals_returns (pf : Platform) (d dc : list (string * pyval)) :
  get_default d "context" (PDict []) = PDict dc ->
  (forall v, lookup "mensaje" dc = Some v -> loggable v) ->
  (forall v, lookup "max_tokens" d = Some v -> exists z, v = PInt z) ->
  exists max_tokens,
    locals pf (PDict d) =
    Ok (get_default d "system" (PStr default_system), PDict dc, max_tokens).
Proof.
  intros Hctx Hmensaje Hmax. unfold locals. cbn [get]. rewrite Hctx. cbn [get].
  assert (Hint : exists z, int pf (get_default d "max_tokens" (PInt 300)) = Ok z).
  { unfold get_default. destruct (lookup "max_tokens" d) as [v|].
    - destruct (Hmax v eq_refl) as [z ->]. exists z. reflexivity.
    - exists 300. reflexivity. }
  destruct Hint as [z ->]. exists z.
  assert (Hslice : exists w, slice_to (get_default dc "mensaje" (PStr "")) 50 = Ok w /\
                             print_request w = Ok tt).
  { unfold get_default. destruct (lookup "mensaje" dc) as [v|].
    - destruct (Hmensaje v eq_refl) as [(s0 & -> & Hs0)|[l ->]].
      + eexists. split; [reflexivity|]. rewrite print_request_text, Hs0. reflexivity.
      + eexists. split; reflexivity.
    - eexists. split; reflexivity. }
  destruct Hslice as (w & -> & ->). reflexivity.
Qed.

(** The engine is called at most once, after the parse, and only from
    the last case of [chat_cases]. *)
Lemma engine_call_inv (pf : Platform) (st : State) (llm : Llama)
    (now data : string) (msgs : pyval) (temp : pyfloat) (mt : Z) :
  _LLM st = Some llm ->
  In (EvChatCompletion msgs temp mt) (fst (chat pf st now data)) ->
  exists payload system_prompt context,
    json_loads pf data = Some payload /\
    locals pf payload = Ok (system_prompt, context, mt) /\
    msgs = messages pf system_prompt context /\
    temp = temperature /\
    chat pf st now data =
      ([EvGetJson data; EvChatCompletion msgs temp mt],
       match create_chat_completion llm msgs temp mt with
       | Raise e => processing_error pf e
       | Ok response =>
           match respond now response with
           | Ok r => r
           | Raise e => processing_error pf e
           end
       end).
Proof.
  intros Hllm Hin.
  destruct (chat_trace_nonempty pf st now data _ Hin) as [Herr _].
  rewrite (chat_cases pf st llm now data Herr Hllm) in Hin |- *.
  destruct (json_loads pf data) as [payload|].
  - destruct (locals pf payload) as [[[sp ctx] mt']|e] eqn:Hloc.
    + cbn in Hin. destruct Hin as [Hin|[Hin|[]]]; [discriminate Hin|].
      injection Hin as <- <- <-.
      exists payload, sp, ctx. repeat split. exact Hloc.
    + cbn in Hin. destruct Hin as [Hin|[]]. discriminate Hin.
  - cbn in Hin. destruct Hin as [Hin|[]]. discriminate Hin.
Qed.

(** C10. With a handle and no error, a request body that is not a JSON
    document (the empty body among them, whenever the parser rejects it)
    makes [get_json] raise inside the [try] block: the answer is the 500
    of the [except] clause with its [error] and [type] fields, not a 400
    and not a 200, and the engine is not called. *)
Theorem chat_unparseable_500 (pf : Platform) (st : State) (llm : Llama)
    (now data : string) :
  error_set st = false ->
  _LLM st = Some llm ->
  json_loads pf data = None ->
  chat pf st now data =
    ([EvGetJson data],
     processing_error pf (Raised "BadRequest" (bad_request_text pf))) /\
  status (snd (chat pf st now data)) = 500 /\
  status (snd (chat pf st now data)) <> 400 /\
  status (snd (chat pf st now data)) <> 200 /\
  field "error" (body (snd (chat pf st now data))) =
    Some (PStr ("Error procesando request: " ++ bad_request_text pf)) /\
  field "type" (body (snd (chat pf st now data))) = Some (PStr "BadRequest").
Proof.
  intros Herr Hllm Hbad.
  rewrite (chat_cases pf st llm now data Herr Hllm), Hbad. cbn.
  repeat split; discriminate.
Qed.

Lemma chat_unparseable_500_witness :
  json_loads pf_ready "" = None /\
  status (snd (chat pf_ready (ready_state (Ok riega)) t0 "")) = 500.
Proof.
  split; [reflexivity|].
  apply (chat_unparseable_500 pf_ready (ready_state (Ok riega))
           (stub_llm (Ok riega)) t0 ""); reflexivity.
Defined.

(** C8. Whenever [chat] calls the engine, the payload was a JSON object
    whose [context] is a mapping, and the call is the only one of the
    request: its [messages] are exactly two, the system message carrying
    [system_prompt] and the user message carrying [json.dumps] of the
    context; its temperature is 0.2; its [max_tokens] is [int] of the
    requested value. *)
Theorem chat_engine_call (pf : Platform) (st : State) (now data : string)
    (msgs : pyval) (temp : pyfloat) (mt : Z) :
  In (EvChatCompletion msgs temp mt) (fst (chat pf st now data)) ->
  exists d dc,
    json_loads pf data = Some (PDict d) /\
    get_default d "context" (PDict []) = PDict dc /\
    msgs = PList
      [ PDict [ ("role", PStr "system");
                ("content", get_default d "system" (PStr default_system)) ];
        PDict [ ("role", PStr "user");
                ("content", PStr (json_dumps pf (PDict dc))) ] ] /\
    temp = Float 0.2 /\
    int pf (get_default d "max_tokens" (PInt 300)) = Ok mt /\
    fst (chat pf st now data) = [EvGetJson data; EvChatCompletion msgs temp mt].
Proof.
  intros Hin.
  destruct (chat_trace_nonempty pf st now data _ Hin) as [_ [llm Hllm]].
  destruct (engine_call_inv pf st llm now data msgs temp mt Hllm Hin)
    as (payload & sp & ctx & Hload & Hloc & Hmsgs & Htemp & Hchat).
  destruct (locals_inv pf payload sp ctx mt Hloc)
    as (d & dc & -> & Hsp & Hctx & Hdc & Hint).
  exists d, dc. rewrite Hchat. cbn [fst].
  repeat split; try assumption.
  - rewrite <- Hctx. exact Hdc.
  - rewrite Hmsgs. unfold messages. rewrite Hsp, Hdc. reflexivity.
Qed.

Lemma chat_engine_call_witness :
  exists d dc,
    json_loads pf_ready "{}" = Some (PDict d) /\
    get_default d "context" (PDict []) = PDict dc /\
    messages pf_ready (PStr default_system) (PDict []) = PList
      [ PDict [ ("role", PStr "system");
                ("content", get_default d "system" (PStr default_system)) ];
        PDict [ ("role", PStr "user");
                ("content", PStr (json_dumps pf_ready (PDict dc))) ] ] /\
    temperature = Float 0.2 /\
    int pf_ready (get_default d "max_tokens" (PInt 300)) = Ok 300 /\
    fst (chat pf_ready (ready_state (Ok riega)) t0 "{}") =
      [EvGetJson "{}";
       EvChatCompletion (messages pf_ready (PStr default_system) (PDict []))
                        temperature 300].
Proof.
  apply (chat_engine_call pf_ready (ready_state (Ok riega)) t0 "{}").
  cbn. right. left. reflexivity.
Defined.



(** Where the defaults do not help: a [mensaje] that cannot be sliced
    ends the request at line 131, before the engine is called, whatever
    the engine would have answered. *)
Remark chat_mensaje_not_text_500 :
  chat (toy_platform
          (fun _ => Some (PDict [ ("context", PDict [ ("mensaje", PInt 5) ]) ]))
          true (Ok (stub_llm (Ok riega))))
       (ready_state (Ok riega)) t0 "" =
  ([EvGetJson ""],
   {| status := 500;
      body := jsonify
        [ ("error", PStr "Error procesando request: 'int' object is not subscriptable");
          ("type", PStr "TypeError") ] |}).
Proof. reflexivity. Qed.

(** The exceptions of the [try] block come from its three stages: the
    parse of the body and the reads of the payload, the engine call,
    and the reading of the engine's answer. *)
Lemma chat_try_raise_stages (pf : Platform) (llm : Llama) (now data : string)
    (t : list Event) (e : exn) :
  chat_try pf llm now data = (t, Raise e) ->
  (json_loads pf data = None /\
   e = Raised "BadRequest" (bad_request_text pf)) \/
  (exists payload,
     json_loads pf data = Some payload /\ locals pf payload = Raise e) \/
  (exists payload system_prompt context max_tokens,
     json_loads pf data = Some payload /\
     locals pf payload = Ok (system_prompt, context, max_tokens) /\
     (create_chat_completion llm (messages pf system_prompt context)
        temperature max_tokens = Raise e \/
      exists response,
        create_chat_completion llm (messages pf system_prompt context)
          temperature max_tokens = Ok response /\
        respond now response = Raise e)).
Proof.
  rewrite chat_try_view.
  destruct (json_loads pf data) as [payload|].
  - destruct (locals pf payload) as [[[sp ctx] mt]|e'] eqn:Hloc.
    + cbn zeta.
      destruct (create_chat_completion llm (messages pf sp ctx) temperature mt)
        as [response|e'] eqn:Hresp; intros H; injection H as _ H.
      * right. right. exists payload, sp, ctx, mt.
        split; [reflexivity|]. split; [exact Hloc|].
        right. exists response. split; [exact Hresp|exact H].
      * subst e'. right. right. exists payload, sp, ctx, mt.
        split; [reflexivity|]. split; [exact Hloc|].
        left. exact Hresp.
    + intros H. injection H as _ <-. right. left. exists payload.
      split; [reflexivity|exact Hloc].
  - intros H. injection H as _ <-. left. split; reflexivity.
Qed.

(** C4. With a handle and no error, whenever the [try] block of [chat]
    raises an exception [e], at any stage, [chat] returns: the answer is
    a 500 whose [error] field ends with [str(e)] and whose [type] field
    is the class name of [e]; and the requests that follow are answered
    as they would have been, from the same globals. *)
Theorem chat_exception_500 (pf : Platform) (cfg : Config) (st : State)
    (llm : Llama) (now data : string) (t : list Event) (e : exn) :
  error_set st = false ->
  _LLM st = Some llm ->
  chat_try pf llm now data = (t, Raise e) ->
  chat pf st now data = (t, processing_error pf e) /\
  status (snd (chat pf st now data)) = 500 /\
  field "error" (body (snd (chat pf st now data))) =
    Some (PStr ("Error procesando request: " ++ str pf e)) /\
  contains ("Error procesando request: " ++ str pf e) (str pf e) /\
  field "type" (body (snd (chat pf st now data))) = Some (PStr (exn_class pf e)) /\
  forall later,
    serve pf cfg st ((now, POST_chat data) :: later) =
    processing_error pf e :: serve pf cfg st later.
Proof.
  intros Herr Hllm Htry.
  assert (Hchat : chat pf st now data = (t, processing_error pf e)).
  { rewrite (chat_ready pf st llm now data Herr Hllm), Htry. reflexivity. }
  rewrite Hchat. cbn [snd processing_error status body field jsonify].
  repeat split.
  - exists "Error procesando request: ", "". rewrite append_empty. reflexivity.
  - intros later. cbn [serve handle]. rewrite Hchat. reflexivity.
Qed.

Lemma chat_exception_500_witness :
  chat_try pf_ready (stub_llm (Raise (Raised "RuntimeError" "llama_decode returned -3")))
    t0 "{}" =
    ([EvGetJson "{}";
      EvChatCompletion (messages pf_ready (PStr default_system) (PDict []))
                       temperature 300],
     Raise (Raised "RuntimeError" "llama_decode returned -3")) /\
  serve pf_ready toy_cfg
    (ready_state (Raise (Raised "RuntimeError" "llama_decode returned -3")))
    [(t0, POST_chat "{}"); (t0, GET_health)] =
  [ {| status := 500;
       body := jsonify
         [ ("error", PStr "Error procesando request: llama_decode returned -3");
           ("type", PStr "RuntimeError") ] |};
    {| status := 200;
       body := jsonify
         [ ("status", PStr "ok");
           ("timestamp", PStr t0);
           ("model_loaded", PBool true);
           ("model_path", PStr (MODEL_PATH toy_cfg)) ] |} ].
Proof.
  split; [reflexivity|].
  apply (chat_exception_500 pf_ready toy_cfg
           (ready_state (Raise (Raised "RuntimeError" "llama_decode returned -3")))
           (stub_llm (Raise (Raised "RuntimeError" "llama_decode returned -3")))
           t0 "{}"
           [EvGetJson "{}";
            EvChatCompletion (messages pf_ready (PStr default_system) (PDict []))
                             temperature 300]
           (Raised "RuntimeError" "llama_decode returned -3"));
    reflexivity.
Defined.

(** C6, as the code has it. After an engine call that returned, when
    the first choice's message has a [content] entry that is a text, the
    answer is a 200 carrying that text and the timestamp; when the entry
    is [None], the answer carries the empty text; when the message has
    no [content] entry, the subscript raises [KeyError] and the answer is
    the 500 of the [except] clause. *)
Theorem chat_content (pf : Platform) (st : State) (llm : Llama)
    (now data : string) (msgs : pyval) (temp : pyfloat) (mt : Z)
    (response message : pyval) :
  _LLM st = Some llm ->
  In (EvChatCompletion msgs temp mt) (fst (chat pf st now data)) ->
  create_chat_completion llm msgs temp mt = Ok response ->
  first_message response = Ok message ->
  (forall s, field "content" message = Some (PStr s) ->
     snd (chat pf st now data) = chat_ok (PStr s) now) /\
  (field "content" message = Some PNone ->
     snd (chat pf st now data) = chat_ok (PStr "") now) /\
  (forall entries, message = PDict entries -> lookup "content" entries = None ->
     snd (chat pf st now data) =
       processing_error pf (Builtin (MissingKey (PStr "content"))) /\
     status (snd (chat pf st now data)) = 500 /\
     field "type" (body (snd (chat pf st now data))) = Some (PStr "KeyError")).
Proof.
  intros Hllm Hin Hresp Hmsg.
  destruct (engine_call_inv pf st llm now data msgs temp mt Hllm Hin)
    as (payload & sp & ctx & _ & _ & _ & _ & Hchat).
  rewrite Hchat, Hresp. cbn [snd]. unfold respond. rewrite Hmsg.
  split; [|split].
  - intros s Hs. destruct message as [| | | | | |entries]; try discriminate Hs.
    cbn in Hs. cbn [getitem]. rewrite Hs.
    unfold py_or. destruct (truthy (PStr s)) eqn:Ht; [reflexivity|].
    cbn in Ht. apply negb_false_iff, String.eqb_eq in Ht. subst s. reflexivity.
  - intros Hs. destruct message as [| | | | | |entries]; try discriminate Hs.
    cbn in Hs. cbn [getitem]. rewrite Hs. reflexivity.
  - intros entries -> Hnone. cbn [getitem]. rewrite Hnone.
    split; [reflexivity|]. split; reflexivity.
Qed.

Lemma chat_content_witness :
  first_message riega =
    Ok (PDict [ ("role", PStr "assistant");
                ("content", PStr "Riega el cultivo cada 3 días.") ]) /\
  snd (chat pf_ready (ready_state (Ok riega)) t0 "{}") =
    chat_ok (PStr "Riega el cultivo cada 3 días.") t0.
Proof.
  split; [reflexivity|].
  refine (proj1
    (chat_content pf_ready (ready_state (Ok riega)) (stub_llm (Ok riega)) t0 "{}"
       (messages pf_ready (PStr default_system) (PDict [])) temperature 300
       riega
       (PDict [ ("role", PStr "assistant");
                ("content", PStr "Riega el cultivo cada 3 días.") ])
       eq_refl _ eq_refl eq_refl) _ eq_refl).
  cbn. right. left. reflexivity.
Defined.

(** C6 as stated fails for an absent [content]: the engine is called
    and returns a completion whose message has no [content] entry; the
    answer is the 500 for [KeyError], not a 200 with the empty text. *)
Lemma absent_content_gives_500 :
  fst (chat pf_ready (ready_state (Ok no_content)) t0 "{}") =
    [EvGetJson "{}";
     EvChatCompletion (messages pf_ready (PStr default_system) (PDict []))
                      temperature 300] /\
  create_chat_completion (stub_llm (Ok no_content))
    (messages pf_ready (PStr default_system) (PDict [])) temperature 300 =
    Ok no_content /\
  first_message no_content = Ok (PDict [ ("role", PStr "assistant") ]) /\
  snd (chat pf_ready (ready_state (Ok no_content)) t0 "{}") =
    {| status := 500;
       body := jsonify [ ("error", PStr "Error procesando request: 'content'");
                         ("type", PStr "KeyError") ] |} /\
  snd (chat pf_ready (ready_state (Ok no_content)) t0 "{}") <> chat_ok (PStr "") t0.
Proof. cbn. repeat split. discriminate. Qed.

(* ================================================================== *)
(** * Further properties of the module *)

(** ** The loader, beyond the missing file *)

(** When the file is there and the [Llama] constructor raises [e],
    [load_model()] has called the constructor once, with the three
    configured values; it returns [False], records the text that ends
    with [str(e)], which is never the text of the missing file, and
    leaves [_LLM] as it was. *)
Theorem load_model_init_failure (pf : Platform) (cfg : Config) (st : State) (e : exn) :
  path_exists pf (MODEL_PATH cfg) = Ok true ->
  new_Llama pf (MODEL_PATH cfg) (N_CTX cfg) (N_THREADS cfg) = Raise e ->
  fst (load_model pf cfg st) =
    [EvLlamaInit (MODEL_PATH cfg) (N_CTX cfg) (N_THREADS cfg)] /\
  fst (snd (load_model pf cfg st)) = Ok false /\
  _MODEL_ERROR (loaded pf cfg st) = Some ("❌ ERROR cargando modelo: " ++ str pf e) /\
  contains ("❌ ERROR cargando modelo: " ++ str pf e) (str pf e) /\
  "❌ ERROR cargando modelo: " ++ str pf e <>
    "❌ ERROR: Modelo NO encontrado en: " ++ MODEL_PATH cfg /\
  _LLM (loaded pf cfg st) = _LLM st.
Proof.
  intros Hfile Hctor. unfold loaded.
  rewrite (load_model_eq_raises pf cfg st e Hfile Hctor). cbn [fst snd _LLM _MODEL_ERROR].
  repeat split.
  - exists "❌ ERROR cargando modelo: ", "". rewrite append_empty. reflexivity.
  - cbn. discriminate.
Qed.

Lemma load_model_init_failure_witness :
  path_exists pf_broken (MODEL_PATH toy_cfg) = Ok true /\
  _MODEL_ERROR (loaded pf_broken toy_cfg initial_state) =
    Some "❌ ERROR cargando modelo: Failed to load model from file".
Proof.
  split; [reflexivity|].
  apply (load_model_init_failure pf_broken toy_cfg initial_state
           (Raised "ValueError" "Failed to load model from file")); reflexivity.
Defined.

(** The flag [load_model()] returns, on the globals as initialised, tells
    the outcome: [True] exactly when a handle is stored, [False] exactly
    when an error is recorded; and a stored handle is the object the
    constructor returned for the configured path and sizes. *)
Theorem load_model_flag (pf : Platform) (cfg : Config) :
  (fst (snd (load_model pf cfg initial_state)) = Ok true <->
   _LLM (loaded pf cfg initial_state) <> None) /\
  (fst (snd (load_model pf cfg initial_state)) = Ok false <->
   _MODEL_ERROR (loaded pf cfg initial_state) <> None) /\
  (forall llm,
     _LLM (loaded pf cfg initial_state) = Some llm ->
     path_exists pf (MODEL_PATH cfg) = Ok true /\
     new_Llama pf (MODEL_PATH cfg) (N_CTX cfg) (N_THREADS cfg) = Ok llm).
Proof.
  unfold loaded, load_model.
  destruct (path_exists pf (MODEL_PATH cfg)) as [[|]|e0]; cbn [negb].
  - destruct (new_Llama pf (MODEL_PATH cfg) (N_CTX cfg) (N_THREADS cfg)) as [llm|e];
      cbn.
    + split; [split; [discriminate|reflexivity]|].
      split; [split; [discriminate|intros H; contradiction H; reflexivity]|].
      intros llm' H. injection H as <-. split; reflexivity.
    + split; [split; [discriminate|intros H; contradiction H; reflexivity]|].
      split; [split; [discriminate|reflexivity]|]. discriminate.
  - cbn. split; [split; [discriminate|intros H; contradiction H; reflexivity]|].
    split; [split; [discriminate|reflexivity]|]. discriminate.
  - cbn. split; [split; [discriminate|intros H; contradiction H; reflexivity]|].
    split; [split; [discriminate|intros H; contradiction H; reflexivity]|].
    discriminate.
Qed.

(** [load_model()] never takes anything away, from whatever globals it
    starts: a recorded error stays recorded and a stored handle stays
    stored; and it calls the constructor at most once. *)
Theorem load_model_never_clears (pf : Platform) (cfg : Config) (st : State) :
  (_MODEL_ERROR st <> None -> _MODEL_ERROR (loaded pf cfg st) <> None) /\
  (_LLM st <> None -> _LLM (loaded pf cfg st) <> None) /\
  (fst (load_model pf cfg st) = [] \/
   fst (load_model pf cfg st) =
     [EvLlamaInit (MODEL_PATH cfg) (N_CTX cfg) (N_THREADS cfg)]).
Proof.
  unfold loaded, load_model.
  destruct (path_exists pf (MODEL_PATH cfg)) as [[|]|e0]; cbn [negb].
  - destruct (new_Llama pf (MODEL_PATH cfg) (N_CTX cfg) (N_THREADS cfg)) as [llm|e];
      cbn; (split; [|split]); try (intros _; discriminate); try (intros H; exact H);
      right; reflexivity.
  - cbn. split; [intros _; discriminate|]. split; [intros H; exact H|].
    left. reflexivity.
  - cbn. split; [intros H; exact H|]. split; [intros H; exact H|].
    left. reflexivity.
Qed.

(** A second [load_model()] that succeeds after a first one that failed
    does not bring the service back: the handle is stored, the error of
    the first run is still recorded, and [chat] and [health] keep
    answering as unavailable, since they test the error first. *)
Theorem retry_stays_unavailable (pf1 pf2 : Platform) (cfg : Config)
    (e now data : string) :
  _MODEL_ERROR (loaded pf1 cfg initial_state) = Some e ->
  fst (snd (load_model pf2 cfg (loaded pf1 cfg initial_state))) = Ok true ->
  _LLM (loaded pf2 cfg (loaded pf1 cfg initial_state)) <> None /\
  _MODEL_ERROR (loaded pf2 cfg (loaded pf1 cfg initial_state)) = Some e /\
  chat pf2 (loaded pf2 cfg (loaded pf1 cfg initial_state)) now data =
    ([], model_unavailable e) /\
  status (health cfg (loaded pf2 cfg (loaded pf1 cfg initial_state)) now) = 500.
Proof.
  intros He Hflag.
  assert (Htruthy : truthy (PStr e) = true).
  { apply (reachable_error_truthy pf1 cfg (loaded pf1 cfg initial_state));
      [apply reach_load, reach_initial|exact He]. }
  set (st1 := loaded pf1 cfg initial_state) in *.
  assert (Hst2 : exists llm,
            loaded pf2 cfg st1 = {| _LLM := Some llm; _MODEL_ERROR := Some e |}).
  { revert Hflag. unfold loaded, load_model.
    destruct (path_exists pf2 (MODEL_PATH cfg)) as [[|]|e0]; cbn [negb];
      try discriminate.
    destruct (new_Llama pf2 (MODEL_PATH cfg) (N_CTX cfg) (N_THREADS cfg)) as [llm|e'];
      [|discriminate].
    intros _. exists llm. cbn. rewrite He. reflexivity. }
  destruct Hst2 as [llm ->].
  split; [discriminate|]. split; [reflexivity|].
  unfold chat, health, error_set. cbn [_MODEL_ERROR _LLM]. rewrite Htruthy.
  split; reflexivity.
Qed.

Lemma retry_stays_unavailable_witness :
  _MODEL_ERROR (loaded pf_missing toy_cfg initial_state) =
    Some "❌ ERROR: Modelo NO encontrado en: /app/models/qwen2.5-3b-instruct-q4_k_m.gguf" /\
  fst (snd (load_model pf_ready toy_cfg (loaded pf_missing toy_cfg initial_state))) =
    Ok true /\
  chat pf_ready (loaded pf_ready toy_cfg (loaded pf_missing toy_cfg initial_state)) t0 "{}" =
    ([], model_unavailable
           "❌ ERROR: Modelo NO encontrado en: /app/models/qwen2.5-3b-instruct-q4_k_m.gguf").
Proof.
  split; [reflexivity|]. split; [reflexivity|].
  apply (retry_stays_unavailable pf_missing pf_ready toy_cfg
           "❌ ERROR: Modelo NO encontrado en: /app/models/qwen2.5-3b-instruct-q4_k_m.gguf"
           t0 "{}"); reflexivity.
Defined.

(** ** The outcomes of [chat] *)

Lemma len_ok_inv (v : pyval) (n : Z) :
  len v = Ok n ->
  (exists s, v = PStr s) \/ (exists l, v = PList l) \/ (exists d, v = PDict d).
Proof.
  destruct v as [| | | |s|l|d]; try discriminate; intros _.
  - left. exists s. reflexivity.
  - right. left. exists l. reflexivity.
  - right. right. exists d. reflexivity.
Qed.

(** What [respond] returns, when it returns. *)
Lemma respond_ok_inv (now : string) (response : pyval) (r : Response) :
  respond now response = Ok r ->
  exists message c n,
    first_message response = Ok message /\
    getitem message "content" = Ok c /\
    len (py_or c (PStr "")) = Ok n /\
    r = chat_ok (py_or c (PStr "")) now.
Proof.
  unfold respond.
  destruct (first_message response) as [message|e] eqn:Hmsg; [|discriminate].
  destruct (getitem message "content") as [c|e] eqn:Hc; [|discriminate].
  destruct (len (py_or c (PStr ""))) as [n|e] eqn:Hlen; [|discriminate].
  intros H. injection H as <-. exists message, c, n.
  split; [reflexivity|]. split; [exact Hc|]. split; [exact Hlen|reflexivity].
Qed.

(** Trace and status of [chat], case by case. *)
Lemma chat_status_cases (pf : Platform) (st : State) (now data : string) :
  (fst (chat pf st now data) = [] /\
   status (snd (chat pf st now data)) = 503 /\
   (error_set st = true \/ _LLM st = None)) \/
  (error_set st = false /\ _LLM st <> None /\
   ((fst (chat pf st now data) = [EvGetJson data] /\
     status (snd (chat pf st now data)) = 500) \/
    (exists msgs mt,
       fst (chat pf st now data) =
         [EvGetJson data; EvChatCompletion msgs temperature mt] /\
       (status (snd (chat pf st now data)) = 200 \/
        status (snd (chat pf st now data)) = 500)))).
Proof.
  destruct (error_set st) eqn:Herr.
  { left. unfold chat. rewrite Herr. cbn. repeat split. left. reflexivity. }
  destruct (_LLM st) as [llm|] eqn:Hllm.
  2:{ left. unfold chat. rewrite Herr, Hllm. cbn. repeat split. right. reflexivity. }
  right. split; [reflexivity|]. split; [discriminate|].
  rewrite (chat_cases pf st llm now data Herr Hllm).
  destruct (json_loads pf data) as [payload|]; [|left; split; reflexivity].
  destruct (locals pf payload) as [[[sp ctx] mt]|e]; [|left; split; reflexivity].
  right. exists (messages pf sp ctx), mt. cbn [fst snd]. split; [reflexivity|].
  destruct (create_chat_completion llm (messages pf sp ctx) temperature mt)
    as [response|e]; [|right; reflexivity].
  destruct (respond now response) as [r|e] eqn:Hr; [|right; reflexivity].
  destruct (respond_ok_inv now response r Hr) as (m & c & n & _ & _ & _ & ->).
  left. reflexivity.
Qed.

(** Every answer of [chat] is a 503, a 500 or a 200, and the trace
    tells which: nothing was called before a 503; the body was parsed
    and the engine not called, and the answer is a 500; or the body was
    parsed, then the engine called once, and the answer is a 200 or a
    500. The engine is never called before the body is parsed, and
    never twice. *)
Theorem chat_outcomes (pf : Platform) (st : State) (now data : string) :
  (fst (chat pf st now data) = [] /\ status (snd (chat pf st now data)) = 503) \/
  (fst (chat pf st now data) = [EvGetJson data] /\
   status (snd (chat pf st now data)) = 500) \/
  (exists msgs mt,
     fst (chat pf st now data) =
       [EvGetJson data; EvChatCompletion msgs temperature mt] /\
     (status (snd (chat pf st now data)) = 200 \/
      status (snd (chat pf st now data)) = 500)).
Proof.
  destruct (chat_status_cases pf st now data)
    as [(Ht & Hs & _)|(_ & _ & [H|H])].
  - left. split; assumption.
  - right. left. exact H.
  - right. right. exact H.
Qed.

(** A 200 of [chat] always has the two fields [content] and
    [timestamp], the latter the clock reading of the request; its
    [content] is never [None]: it is a text, or a list or mapping the
    engine put there, and it is the empty text or a true value. *)
Theorem chat_success_body (pf : Platform) (st : State) (now data : string) :
  status (snd (chat pf st now data)) = 200 ->
  exists c,
    snd (chat pf st now data) = chat_ok c now /\
    c <> PNone /\
    ((exists s, c = PStr s) \/ (exists l, c = PList l) \/ (exists d, c = PDict d)) /\
    (c = PStr "" \/ truthy c = true).
Proof.
  intros H200.
  destruct (chat_status_cases pf st now data)
    as [(_ & Hs & _)|(Herr & Hllm & _)].
  { rewrite Hs in H200. discriminate H200. }
  destruct (_LLM st) as [llm|] eqn:Hl; [|contradiction Hllm; reflexivity].
  rewrite (chat_cases pf st llm now data Herr Hl) in H200 |- *.
  destruct (json_loads pf data) as [payload|]; [|discriminate H200].
  destruct (locals pf payload) as [[[sp ctx] mt]|e]; [|discriminate H200].
  cbn [snd] in H200 |- *.
  destruct (create_chat_completion llm (messages pf sp ctx) temperature mt)
    as [response|e]; [|discriminate H200].
  destruct (respond now response) as [r|e] eqn:Hr; [|discriminate H200].
  destruct (respond_ok_inv now response r Hr) as (m & c & n & _ & _ & Hlen & ->).
  exists (py_or c (PStr "")). split; [reflexivity|].
  pose proof (len_ok_inv _ _ Hlen) as Hshape.
  split; [|split; [exact Hshape|]].
  - destruct Hshape as [[s ->]|[[l ->]|[d ->]]]; discriminate.
  - unfold py_or. destruct (truthy c) eqn:Ht; [right; exact Ht|left; reflexivity].
Qed.

Lemma chat_success_body_witness :
  status (snd (chat pf_ready (ready_state (Ok riega)) t0 "{}")) = 200 /\
  exists c,
    snd (chat pf_ready (ready_state (Ok riega)) t0 "{}") = chat_ok c t0 /\
    c <> PNone /\
    ((exists s, c = PStr s) \/ (exists l, c = PList l) \/ (exists d, c = PDict d)) /\
    (c = PStr "" \/ truthy c = true).
Proof.
  split; [reflexivity|].
  apply (chat_success_body pf_ready (ready_state (Ok riega)) t0 "{}"). reflexivity.
Defined.

(** ** Payloads the handler does not accept *)

(** With a handle and no error, a failure of [locals] is the answer. *)
Lemma chat_locals_raise (pf : Platform) (st : State) (llm : Llama)
    (now data : string) (payload : pyval) (e : exn) :
  error_set st = false -> _LLM st = Some llm ->
  json_loads pf data = Some payload ->
  locals pf payload = Raise e ->
  chat pf st now data = ([EvGetJson data], processing_error pf e).
Proof.
  intros Herr Hllm Hload Hloc.
  rewrite (chat_cases pf st llm now data Herr Hllm), Hload, Hloc. reflexivity.
Qed.

(** A body that is a JSON document but not an object ([null], a list, a
    number, a text) is not rejected as a bad request: [payload.get]
    raises [AttributeError], the answer is the 500 of the [except]
    clause, and the engine is not called. *)
Theorem chat_non_object_500 (pf : Platform) (st : State) (llm : Llama)
    (now data : string) (payload : pyval) :
  error_set st = false ->
  _LLM st = Some llm ->
  json_loads pf data = Some payload ->
  (forall d, payload <> PDict d) ->
  chat pf st now data =
    ([EvGetJson data], processing_error pf (Builtin (NoAttribute payload "get"))) /\
  status (snd (chat pf st now data)) = 500 /\
  field "type" (body (snd (chat pf st now data))) = Some (PStr "AttributeError").
Proof.
  intros Herr Hllm Hload Hnot.
  assert (Hloc : locals pf payload = Raise (Builtin (NoAttribute payload "get"))).
  { destruct payload as [| | | | | |d]; try reflexivity.
    contradiction (Hnot d). reflexivity. }
  rewrite (chat_locals_raise pf st llm now data payload _ Herr Hllm Hload Hloc).
  repeat split.
Qed.

Lemma chat_non_object_500_witness :
  json_loads pf_ready "null" = Some PNone /\
  chat pf_ready (ready_state (Ok riega)) t0 "null" =
    ([EvGetJson "null"],
     {| status := 500;
        body := jsonify
          [ ("error", PStr "Error procesando request: 'NoneType' object has no attribute 'get'");
            ("type", PStr "AttributeError") ] |}).
Proof.
  split; [reflexivity|].
  apply (chat_non_object_500 pf_ready (ready_state (Ok riega)) (stub_llm (Ok riega))
           t0 "null" PNone); try reflexivity.
  intros d. discriminate.
Defined.

(** The classes [int] can raise. *)
Lemma int_raise_class (pf : Platform) (v : pyval) (e : exn) :
  int pf v = Raise e ->
  exn_class pf e = "TypeError" \/ exn_class pf e = "ValueError" \/
  exn_class pf e = "OverflowError".
Proof.
  destruct v as [|b|z|[q|neg|]|s|l|d]; cbn; try discriminate;
    try (intros H; injection H as <-; cbn; auto).
  destruct (int_of_text pf s); [discriminate|].
  intros H; injection H as <-; cbn; auto.
Qed.

(** A [max_tokens] that [int] cannot convert ([null], a list, a text
    that is not an integer literal, NaN, an infinity) stops the request
    before [context] is looked at and before the engine is called: the
    answer is a 500 whose [type] is [TypeError], [ValueError] or
    [OverflowError]. *)
Theorem chat_max_tokens_unconvertible (pf : Platform) (st : State) (llm : Llama)
    (now data : string) (d : list (string * pyval)) (e : exn) :
  error_set st = false ->
  _LLM st = Some llm ->
  json_loads pf data = Some (PDict d) ->
  int pf (get_default d "max_tokens" (PInt 300)) = Raise e ->
  chat pf st now data = ([EvGetJson data], processing_error pf e) /\
  (exists v, lookup "max_tokens" d = Some v /\ int pf v = Raise e) /\
  (field "type" (body (snd (chat pf st now data))) = Some (PStr "TypeError") \/
   field "type" (body (snd (chat pf st now data))) = Some (PStr "ValueError") \/
   field "type" (body (snd (chat pf st now data))) = Some (PStr "OverflowError")).
Proof.
  intros Herr Hllm Hload Hint.
  assert (Hloc : locals pf (PDict d) = Raise e).
  { unfold locals. cbn [get]. rewrite Hint. reflexivity. }
  rewrite (chat_locals_raise pf st llm now data _ _ Herr Hllm Hload Hloc).
  split; [reflexivity|]. split.
  - unfold get_default in Hint. destruct (lookup "max_tokens" d) as [v|].
    + exists v. split; [reflexivity|exact Hint].
    + discriminate Hint.
  - cbn. destruct (int_raise_class pf _ e Hint) as [-> | [-> | ->]]; auto.
Qed.

Lemma chat_max_tokens_unconvertible_witness :
  int pf_ready (get_default [ ("max_tokens", PNone) ] "max_tokens" (PInt 300)) =
    Raise (Builtin (IntBadArgument PNone)) /\
  chat (with_json_loads pf_ready (always (PDict [ ("max_tokens", PNone) ])))
       (ready_state (Ok riega)) t0 "" =
    ([EvGetJson ""],
     {| status := 500;
        body := jsonify
          [ ("error", PStr "Error procesando request: int() argument must be a string, a bytes-like object or a real number, not 'NoneType'");
            ("type", PStr "TypeError") ] |}).
Proof.
  split; [reflexivity|].
  apply (chat_max_tokens_unconvertible
           (with_json_loads pf_ready (always (PDict [ ("max_tokens", PNone) ])))
           (ready_state (Ok riega)) (stub_llm (Ok riega)) t0 ""
           [ ("max_tokens", PNone) ] (Builtin (IntBadArgument PNone)));
    reflexivity.
Defined.

(** A [context] that is present and not a mapping, with a [max_tokens]
    that converts, makes [context.get] raise [AttributeError]: the
    answer is a 500 and the engine is not called. An explicit [null] is
    such a value; it does not stand for the default. *)
Theorem chat_context_not_mapping (pf : Platform) (st : State) (llm : Llama)
    (now data : string) (d : list (string * pyval)) (v : pyval) (mt : Z) :
  error_set st = false ->
  _LLM st = Some llm ->
  json_loads pf data = Some (PDict d) ->
  lookup "context" d = Some v ->
  (forall dc, v <> PDict dc) ->
  int pf (get_default d "max_tokens" (PInt 300)) = Ok mt ->
  chat pf st now data =
    ([EvGetJson data], processing_error pf (Builtin (NoAttribute v "get"))) /\
  field "type" (body (snd (chat pf st now data))) = Some (PStr "AttributeError").
Proof.
  intros Herr Hllm Hload Hctx Hnot Hint.
  assert (Hloc : locals pf (PDict d) = Raise (Builtin (NoAttribute v "get"))).
  { unfold locals. cbn [get]. rewrite Hint.
    unfold get_default at 1. rewrite Hctx.
    destruct v as [| | | | | |dc]; try reflexivity.
    contradiction (Hnot dc). reflexivity. }
  rewrite (chat_locals_raise pf st llm now data _ _ Herr Hllm Hload Hloc).
  split; reflexivity.
Qed.

Lemma chat_context_not_mapping_witness :
  lookup "context" [ ("context", PNone) ] = Some PNone /\
  chat (with_json_loads pf_ready (always (PDict [ ("context", PNone) ])))
       (ready_state (Ok riega)) t0 "" =
    ([EvGetJson ""],
     {| status := 500;
        body := jsonify
          [ ("error", PStr "Error procesando request: 'NoneType' object has no attribute 'get'");
            ("type", PStr "AttributeError") ] |}).
Proof.
  split; [reflexivity|].
  apply (chat_context_not_mapping
           (with_json_loads pf_ready (always (PDict [ ("context", PNone) ])))
           (ready_state (Ok riega)) (stub_llm (Ok riega)) t0 ""
           [ ("context", PNone) ] PNone 300); try reflexivity.
  intros dc. discriminate.
Defined.

(** ** What reaches the engine *)

(** Truncation toward zero, as [int] does on a finite float. *)
Lemma quot_truncates (a : Z) (b : positive) :
  Z.abs (a ÷ Zpos b) * Zpos b <= Z.abs a < (Z.abs (a ÷ Zpos b) + 1) * Zpos b /\
  0 <= (a ÷ Zpos b) * a.
Proof.
  assert (Hb : 0 < Zpos b) by reflexivity.
  split.
  - rewrite <- Z.quot_abs by discriminate.
    change (Z.abs (Zpos b)) with (Zpos b).
    rewrite Z.quot_div_nonneg by (try apply Z.abs_nonneg; exact Hb).
    split.
    + rewrite Z.mul_comm. apply Z.mul_div_le. exact Hb.
    + rewrite Z.mul_comm. apply Z.mul_succ_div_gt. exact Hb.
  - destruct (Z.lt_total a 0) as [Hneg|[->|Hpos]].
    + assert (H : 0 <= (- a) ÷ Zpos b) by (apply Z.quot_pos; lia).
      rewrite Z.quot_opp_l in H by discriminate. nia.
    + rewrite Z.mul_0_r. reflexivity.
    + assert (H : 0 <= a ÷ Zpos b) by (apply Z.quot_pos; lia). nia.
Qed.

(** The [max_tokens] of the payload reaches the engine as [int] makes
    it, without any check of its range: an integer is forwarded as it is,
    zero and negative values included, and the engine is then called
    whenever [context] is a mapping whose [mensaje], if any, can be
    logged; [true] and [false] become 1 and 0; a finite float is cut
    toward zero; a text goes through the integer parser. *)
Theorem chat_max_tokens_forwarded (pf : Platform) (st : State) (llm : Llama)
    (now data : string) (d : list (string * pyval)) (v : pyval) :
  error_set st = false ->
  _LLM st = Some llm ->
  json_loads pf data = Some (PDict d) ->
  lookup "max_tokens" d = Some v ->
  (forall z dc,
     v = PInt z ->
     get_default d "context" (PDict []) = PDict dc ->
     (forall m, lookup "mensaje" dc = Some m -> loggable m) ->
     fst (chat pf st now data) =
       [EvGetJson data;
        EvChatCompletion
          (messages pf (get_default d "system" (PStr default_system)) (PDict dc))
          temperature z]) /\
  (forall msgs temp mt,
     In (EvChatCompletion msgs temp mt) (fst (chat pf st now data)) ->
     (forall z, v = PInt z -> mt = z) /\
     (forall b, v = PBool b -> mt = if b then 1 else 0) /\
     (forall s, v = PStr s -> int_of_text pf s = Some mt) /\
     (forall q, v = PFloat (Float q) ->
        mt = Qnum q ÷ Zpos (Qden q) /\
        Z.abs mt * Zpos (Qden q) <= Z.abs (Qnum q) < (Z.abs mt + 1) * Zpos (Qden q) /\
        0 <= mt * Qnum q)).
Proof.
  intros Herr Hllm Hload Hv. split.
  - intros z dc -> Hctx Hmensaje.
    assert (Hmax : forall w, lookup "max_tokens" d = Some w -> exists z', w = PInt z').
    { intros w Hw. rewrite Hv in Hw. injection Hw as <-. exists z. reflexivity. }
    destruct (locals_returns pf d dc Hctx Hmensaje Hmax) as [mt Hloc].
    destruct (locals_inv pf _ _ _ _ Hloc) as (d' & dc' & Hd & _ & _ & _ & Hint).
    injection Hd as <-. unfold get_default in Hint. rewrite Hv in Hint.
    cbn in Hint. injection Hint as <-.
    rewrite (chat_cases pf st llm now data Herr Hllm), Hload, Hloc. reflexivity.
  - intros msgs temp mt Hin.
    destruct (engine_call_inv pf st llm now data msgs temp mt Hllm Hin)
      as (payload & sp & ctx & Hload' & Hloc & _).
    rewrite Hload in Hload'. injection Hload' as <-.
    destruct (locals_inv pf _ _ _ _ Hloc) as (d' & dc' & Hd & _ & _ & _ & Hint).
    injection Hd as <-. unfold get_default in Hint. rewrite Hv in Hint.
    split; [|split; [|split]].
    + intros z ->. cbn in Hint. injection Hint as <-. reflexivity.
    + intros b ->. cbn in Hint. injection Hint as <-. reflexivity.
    + intros s ->. cbn in Hint. destruct (int_of_text pf s) as [z|]; [|discriminate Hint].
      injection Hint as <-. reflexivity.
    + intros q ->. cbn in Hint. injection Hint as <-.
      split; [reflexivity|]. apply quot_truncates.
Qed.

Lemma chat_max_tokens_forwarded_witness :
  lookup "max_tokens" [ ("max_tokens", PInt (-5)) ] = Some (PInt (-5)) /\
  fst (chat (with_json_loads pf_ready (always (PDict [ ("max_tokens", PInt (-5)) ])))
            (ready_state (Ok riega)) t0 "") =
    [EvGetJson "";
     EvChatCompletion (messages pf_ready (PStr default_system) (PDict []))
                      temperature (-5)].
Proof.
  split; [reflexivity|].
  refine (proj1
    (chat_max_tokens_forwarded
       (with_json_loads pf_ready (always (PDict [ ("max_tokens", PInt (-5)) ])))
       (ready_state (Ok riega)) (stub_llm (Ok riega)) t0 ""
       [ ("max_tokens", PInt (-5)) ] (PInt (-5)) eq_refl eq_refl eq_refl eq_refl)
    (-5) [] eq_refl eq_refl _).
  intros m Hm. discriminate Hm.
Defined.

(** The handler reads three keys of the payload and nothing else: two
    bodies whose objects agree on [system], [context] and [max_tokens]
    get the same answer and the same engine call. *)
Theorem chat_reads_three_fields (pf : Platform) (st : State)
    (now data1 data2 : string) (d1 d2 : list (string * pyval)) :
  json_loads pf data1 = Some (PDict d1) ->
  json_loads pf data2 = Some (PDict d2) ->
  lookup "system" d1 = lookup "system" d2 ->
  lookup "context" d1 = lookup "context" d2 ->
  lookup "max_tokens" d1 = lookup "max_tokens" d2 ->
  snd (chat pf st now data1) = snd (chat pf st now data2) /\
  tl (fst (chat pf st now data1)) = tl (fst (chat pf st now data2)).
Proof.
  intros H1 H2 Hs Hc Hm.
  destruct (error_set st) eqn:Herr.
  { unfold chat. rewrite Herr. split; reflexivity. }
  destruct (_LLM st) as [llm|] eqn:Hllm.
  2:{ unfold chat. rewrite Herr, Hllm. split; reflexivity. }
  assert (Hloc : locals pf (PDict d1) = locals pf (PDict d2)).
  { unfold locals, get, get_default. rewrite Hs, Hc, Hm. reflexivity. }
  rewrite !(chat_cases pf st llm now _ Herr Hllm), H1, H2, Hloc.
  destruct (locals pf (PDict d2)) as [[[sp ctx] mt]|e]; split; reflexivity.
Qed.

Lemma chat_reads_three_fields_witness :
  snd (chat (with_json_loads pf_ready
               (fun data => if String.eqb data "a"
                            then Some (PDict [ ("user", PStr "ana"); ("max_tokens", PInt 50) ])
                            else Some (PDict [ ("max_tokens", PInt 50); ("stream", PBool true) ])))
            (ready_state (Ok riega)) t0 "a") =
  snd (chat (with_json_loads pf_ready
               (fun data => if String.eqb data "a"
                            then Some (PDict [ ("user", PStr "ana"); ("max_tokens", PInt 50) ])
                            else Some (PDict [ ("max_tokens", PInt 50); ("stream", PBool true) ])))
            (ready_state (Ok riega)) t0 "b").
Proof.
  apply (chat_reads_three_fields
           (with_json_loads pf_ready
              (fun data => if String.eqb data "a"
                           then Some (PDict [ ("user", PStr "ana"); ("max_tokens", PInt 50) ])
                           else Some (PDict [ ("max_tokens", PInt 50); ("stream", PBool true) ])))
           (ready_state (Ok riega)) t0 "a" "b"
           [ ("user", PStr "ana"); ("max_tokens", PInt 50) ]
           [ ("max_tokens", PInt 50); ("stream", PBool true) ]); reflexivity.
Defined.

(** ** The three endpoints agree *)

(** In every state of the globals, [chat] answers something other than
    503 exactly when [health] answers 200 with [model_loaded: true]; [/]
    and [/health] always carry the same status and the same
    [model_loaded]; and when they answer 500, their [error] is the text
    that [chat] returns under [details]. *)
Theorem health_predicts_chat (pf : Platform) (cfg : Config) (st : State)
    (now now' data : string) :
  ((status (health cfg st now) = 200 /\
    field "model_loaded" (body (health cfg st now)) = Some (PBool true)) <->
   status (snd (chat pf st now' data)) <> 503) /\
  status (root cfg st) = status (health cfg st now) /\
  field "model_loaded" (body (root cfg st)) =
    field "model_loaded" (body (health cfg st now)) /\
  (status (health cfg st now) = 500 ->
   field "error" (body (health cfg st now)) = field "error" (body (root cfg st)) /\
   field "error" (body (health cfg st now)) =
     field "details" (body (snd (chat pf st now' data)))).
Proof.
  destruct (chat_status_cases pf st now' data)
    as [(_ & Hs & Hwhy)|(Herr & Hllm & Hst)].
  - rewrite Hs. unfold health, root, chat, llm_is_not_None.
    destruct (error_set st) eqn:Herr; cbn.
    + split; [split|].
      * intros [H200 _]. discriminate H200.
      * intros Hne. contradiction Hne. reflexivity.
      * split; [reflexivity|]. split; [reflexivity|].
        intros _. split; reflexivity.
    + destruct Hwhy as [Hwhy|Hwhy]; [discriminate Hwhy|]. rewrite Hwhy. cbn.
      split; [split|].
      * intros [_ Hml]. discriminate Hml.
      * intros Hne. contradiction Hne. reflexivity.
      * split; [reflexivity|]. split; [reflexivity|]. discriminate.
  - assert (Hne : status (snd (chat pf st now' data)) <> 503).
    { destruct Hst as [[_ ->]|(m & mt & _ & [-> | ->])]; discriminate. }
    unfold health, root, llm_is_not_None. rewrite Herr.
    destruct (_LLM st) as [llm|]; [|contradiction Hllm; reflexivity]. cbn.
    split; [split|].
    + intros _. exact Hne.
    + intros _. split; reflexivity.
    + split; [reflexivity|]. split; [reflexivity|]. discriminate.
Qed.

(** ** Startup *)

(** [main] once [exists()] has answered. *)
Lemma main_eq (pf : Platform) (cfg : Config) (env : Environ) (present : bool) :
  path_exists pf (MODEL_PATH cfg) = Ok present ->
  main pf cfg env =
  (fst (load_model pf cfg initial_state),
   match int pf (getenv env "PORT" (PInt 8080)) with
   | Ok port => AppRun "0.0.0.0" port (loaded pf cfg initial_state)
   | Raise e => Died e
   end).
Proof.
  intros Hp. unfold main, loaded.
  destruct (load_model_returns_cases pf cfg initial_state present Hp)
    as [(msg & _ & Heq)|(llm & Heq)];
    destruct (load_model pf cfg initial_state) as [t [flag st]];
    cbn [fst snd] in *; injection Heq as -> ->;
    destruct (int pf (getenv env "PORT" (PInt 8080))); reflexivity.
Qed.

(** [main] when [exists()] raises: nothing catches the exception. *)
Lemma main_exists_raises (pf : Platform) (cfg : Config) (env : Environ) (e : exn) :
  path_exists pf (MODEL_PATH cfg) = Raise e ->
  main pf cfg env = ([], Died e).
Proof.
  intros Hp. unfold main.
  rewrite (load_model_eq_exists_raises pf cfg initial_state e Hp). reflexivity.
Qed.

(** Whenever the test of the model file answers and the port resolves,
    the script reaches [app.run] on host 0.0.0.0 with the globals
    [load_model()] left, whether the model loaded or not. When
    [load_model()] returned [False], every [/chat] request is answered
    503 without being looked at, as the script prints at line 174; when
    it returned [True], none is. When the test of the model file raises
    instead, the script dies of that exception and [app.run] is not
    reached. *)
Theorem main_serves_degraded (pf : Platform) (cfg : Config) (env : Environ) (port : Z) :
  int pf (getenv env "PORT" (PInt 8080)) = Ok port ->
  (forall present,
     path_exists pf (MODEL_PATH cfg) = Ok present ->
     main pf cfg env =
       (fst (load_model pf cfg initial_state),
        AppRun "0.0.0.0" port (loaded pf cfg initial_state)) /\
     (fst (snd (load_model pf cfg initial_state)) = Ok false ->
      forall now data,
        fst (chat pf (loaded pf cfg initial_state) now data) = [] /\
        status (snd (chat pf (loaded pf cfg initial_state) now data)) = 503) /\
     (fst (snd (load_model pf cfg initial_state)) = Ok true ->
      forall now data,
        status (snd (chat pf (loaded pf cfg initial_state) now data)) <> 503)) /\
  (forall e,
     path_exists pf (MODEL_PATH cfg) = Raise e ->
     main pf cfg env = ([], Died e)).
Proof.
  intros Hport. split; [|intros e Hp; exact (main_exists_raises pf cfg env e Hp)].
  intros present Hp. rewrite (main_eq pf cfg env present Hp), Hport.
  split; [reflexivity|]. unfold loaded.
  destruct (load_model_returns_cases pf cfg initial_state present Hp)
    as [(msg & Hmsg & ->)|(llm & ->)]; cbn [fst snd _LLM _MODEL_ERROR initial_state].
  - split; [|discriminate]. intros _ now data.
    unfold chat, error_set. cbn [_MODEL_ERROR]. rewrite Hmsg. split; reflexivity.
  - split; [discriminate|]. intros _ now data.
    destruct (chat_status_cases pf {| _LLM := Some llm; _MODEL_ERROR := None |} now data)
      as [(_ & _ & [Hwhy|Hwhy])|(_ & _ & [[_ ->]|(m & mt & _ & [-> | ->])])];
      try discriminate.
Qed.

Lemma main_serves_degraded_witness :
  int pf_missing (getenv no_env "PORT" (PInt 8080)) = Ok 8080 /\
  path_exists pf_missing (MODEL_PATH toy_cfg) = Ok false /\
  main pf_missing toy_cfg no_env =
    ([], AppRun "0.0.0.0" 8080
           {| _LLM := None;
              _MODEL_ERROR :=
                Some "❌ ERROR: Modelo NO encontrado en: /app/models/qwen2.5-3b-instruct-q4_k_m.gguf" |}) /\
  main pf_denied toy_cfg no_env =
    ([], Died (Raised "PermissionError" "[Errno 13] Permission denied")).
Proof.
  split; [reflexivity|]. split; [reflexivity|]. split.
  - apply (proj1 (main_serves_degraded pf_missing toy_cfg no_env 8080 eq_refl) false).
    reflexivity.
  - apply (proj2 (main_serves_degraded pf_denied toy_cfg no_env 8080 eq_refl)).
    reflexivity.
Defined.

(** The port is read after the model is loaded, when the test of the
    model file has answered. With [PORT] unset the port is 8080 whatever
    the integer parser accepts, since the default is a number and not a
    text; with [PORT] set to an integer text the port is its value; with
    [PORT] set to anything else the script dies of [ValueError] after
    [load_model()] has run, the constructor call included. When the test
    of the model file raises, the script dies of that exception and
    [PORT] is not read at all. *)
Theorem main_port (pf : Platform) (cfg : Config) (env : Environ) :
  (forall present,
     path_exists pf (MODEL_PATH cfg) = Ok present ->
     fst (main pf cfg env) = fst (load_model pf cfg initial_state) /\
     (env "PORT" = None ->
      snd (main pf cfg env) = AppRun "0.0.0.0" 8080 (loaded pf cfg initial_state)) /\
     (forall s z,
        env "PORT" = Some s -> int_of_text pf s = Some z ->
        snd (main pf cfg env) = AppRun "0.0.0.0" z (loaded pf cfg initial_state)) /\
     (forall s,
        env "PORT" = Some s -> int_of_text pf s = None ->
        snd (main pf cfg env) = Died (Builtin (IntBadLiteral s)) /\
        exn_class pf (Builtin (IntBadLiteral s)) = "ValueError" /\
        (present = true ->
         fst (main pf cfg env) =
           [EvLlamaInit (MODEL_PATH cfg) (N_CTX cfg) (N_THREADS cfg)]))) /\
  (forall e,
     path_exists pf (MODEL_PATH cfg) = Raise e ->
     main pf cfg env = ([], Died e) /\
     forall env', main pf cfg env' = main pf cfg env).
Proof.
  split.
  - intros present Hp. rewrite (main_eq pf cfg env present Hp). cbn [fst snd].
    split; [reflexivity|]. unfold getenv. split; [|split].
    + intros ->. reflexivity.
    + intros s z -> Hz. cbn. rewrite Hz. reflexivity.
    + intros s -> Hs. cbn [int]. rewrite Hs. split; [reflexivity|].
      split; [reflexivity|].
      intros ->. unfold load_model. rewrite Hp. cbn [negb].
      destruct (new_Llama pf (MODEL_PATH cfg) (N_CTX cfg) (N_THREADS cfg)); reflexivity.
  - intros e Hp. split; [exact (main_exists_raises pf cfg env e Hp)|].
    intros env'. rewrite !(main_exists_raises pf cfg _ e Hp). reflexivity.
Qed.

Lemma main_port_witness :
  path_exists pf_broken (MODEL_PATH toy_cfg) = Ok true /\
  main pf_broken toy_cfg (set_env "PORT" "http" no_env) =
    ([EvLlamaInit "/app/models/qwen2.5-3b-instruct-q4_k_m.gguf" 2048 1],
     Died (Builtin (IntBadLiteral "http"))) /\
  path_exists pf_denied (MODEL_PATH toy_cfg) =
    Raise (Raised "PermissionError" "[Errno 13] Permission denied") /\
  main pf_denied toy_cfg (set_env "PORT" "http" no_env) =
    ([], Died (Raised "PermissionError" "[Errno 13] Permission denied")).
Proof.
  split; [reflexivity|]. split; [|split; [reflexivity|]].
  - pose proof (proj1 (main_port pf_broken toy_cfg (set_env "PORT" "http" no_env))
                  true eq_refl) as (Ht & _ & _ & Hbad).
    destruct (Hbad "http" eq_refl eq_refl) as (Hs & _ & Hinit).
    rewrite (surjective_pairing (main pf_broken toy_cfg (set_env "PORT" "http" no_env))).
    rewrite Hs, (Hinit eq_refl). reflexivity.
  - apply (proj2 (main_port pf_denied toy_cfg (set_env "PORT" "http" no_env))).
    reflexivity.
Defined.

Lemma getenv_PStr (env : Environ) (key default : string) :
  getenv env key (PStr default) = PStr (getenv_text env key default).
Proof. unfold getenv, getenv_text. destruct (env key); reflexivity. Qed.

(** [module_config] in terms of the integer parser. *)
Lemma module_config_eq (pf : Platform) (env : Environ) (default_path : string) :
  module_config pf env default_path =
  match int_of_text pf (getenv_text env "N_CTX" "2048") with
  | None => Raise (Builtin (IntBadLiteral (getenv_text env "N_CTX" "2048")))
  | Some n_ctx =>
      match int_of_text pf (getenv_text env "N_THREADS" "1") with
      | None => Raise (Builtin (IntBadLiteral (getenv_text env "N_THREADS" "1")))
      | Some n_threads =>
          Ok {| MODEL_PATH := getenv_text env "LOCAL_MODEL_PATH" default_path;
                N_CTX := n_ctx;
                N_THREADS := n_threads |}
      end
  end.
Proof.
  unfold module_config. rewrite !getenv_PStr. cbn [int].
  destruct (int_of_text pf (getenv_text env "N_CTX" "2048")); [|reflexivity].
  destruct (int_of_text pf (getenv_text env "N_THREADS" "1")); reflexivity.
Qed.

(** What [module_config] returns, when it returns. *)
Lemma module_config_ok_inv (pf : Platform) (env : Environ) (default_path : string)
    (cfg : Config) :
  module_config pf env default_path = Ok cfg ->
  MODEL_PATH cfg = getenv_text env "LOCAL_MODEL_PATH" default_path /\
  int_of_text pf (getenv_text env "N_CTX" "2048") = Some (N_CTX cfg) /\
  int_of_text pf (getenv_text env "N_THREADS" "1") = Some (N_THREADS cfg).
Proof.
  rewrite module_config_eq.
  destruct (int_of_text pf (getenv_text env "N_CTX" "2048")) as [n_ctx|];
    [|discriminate].
  destruct (int_of_text pf (getenv_text env "N_THREADS" "1")) as [n_threads|];
    [|discriminate].
  intros H. injection H as <-. cbn. repeat split.
Qed.

(** The module constants. [MODEL_PATH] is [LOCAL_MODEL_PATH] as it is
    found, or the default, and is not looked at; [N_CTX] and
    [N_THREADS] are the integer values of their variables, or of
    "2048" and "1". If one of the two texts is not an integer,
    [N_CTX] first, the module body raises [ValueError] and the script
    ends before [load_model()] is called. *)
Theorem module_config_outcomes (pf : Platform) (env : Environ) (default_path : string) :
  (forall cfg,
     module_config pf env default_path = Ok cfg ->
     MODEL_PATH cfg = getenv_text env "LOCAL_MODEL_PATH" default_path /\
     int_of_text pf (getenv_text env "N_CTX" "2048") = Some (N_CTX cfg) /\
     int_of_text pf (getenv_text env "N_THREADS" "1") = Some (N_THREADS cfg) /\
     program pf env default_path = main pf cfg env) /\
  (forall e,
     module_config pf env default_path = Raise e ->
     (exists s,
        e = Builtin (IntBadLiteral s) /\ int_of_text pf s = None /\
        (s = getenv_text env "N_CTX" "2048" \/
         s = getenv_text env "N_THREADS" "1" /\
         int_of_text pf (getenv_text env "N_CTX" "2048") <> None)) /\
     exn_class pf e = "ValueError" /\
     program pf env default_path = ([], Died e)).
Proof.
  split.
  - intros cfg Hcfg.
    destruct (module_config_ok_inv pf env default_path cfg Hcfg) as (Hp & Hc & Ht).
    repeat split; try assumption. unfold program. rewrite Hcfg. reflexivity.
  - intros e He.
    assert (Hprog : program pf env default_path = ([], Died e)).
    { unfold program. rewrite He. reflexivity. }
    rewrite module_config_eq in He.
    destruct (int_of_text pf (getenv_text env "N_CTX" "2048")) as [n_ctx|] eqn:Hc.
    + destruct (int_of_text pf (getenv_text env "N_THREADS" "1")) as [n_thr|] eqn:Ht;
        [discriminate He|].
      injection He as <-. split; [|split; [reflexivity|exact Hprog]].
      eexists. split; [reflexivity|]. split; [exact Ht|].
      right. split; [reflexivity|]. discriminate.
    + injection He as <-. split; [|split; [reflexivity|exact Hprog]].
      eexists. split; [reflexivity|]. split; [exact Hc|]. left. reflexivity.
Qed.




(** ** The logged excerpt and the reading of the answer *)

Lemma str_take_spec (s : string) :
  forall n,
    exists rest,
      s = str_take n s ++ rest /\
      match rest with
      | EmptyString => True
      | String c _ => continuation c = false
      end /\
      str_len (str_take n s) = Nat.min n (str_len s).
Proof.
  induction s as [|c s IH]; intros n.
  - exists "". cbn. repeat split. destruct n; reflexivity.
  - cbn [str_take str_len]. destruct (continuation c) eqn:Hc.
    + destruct (IH n) as (rest & Heq & Hrest & Hlen).
      exists rest. cbn [append str_len]. rewrite Hc, <- Heq.
      repeat split; assumption.
    + destruct n as [|m].
      * exists (String c s). cbn. repeat split. exact Hc.
      * destruct (IH m) as (rest & Heq & Hrest & Hlen).
        exists rest. cbn [append str_len]. rewrite Hc, <- Heq, Hlen.
        repeat split. exact Hrest.
Qed.

(** [mensaje[:50]] on a text never raises; it is the text itself when
    that has at most 50 characters, and otherwise its first 50
    characters, cut between two characters and never inside one. *)
Theorem slice_to_text (s : string) (n : nat) :
  exists excerpt rest,
    slice_to (PStr s) n = Ok (PStr excerpt) /\
    s = excerpt ++ rest /\
    str_len excerpt = Nat.min n (str_len s) /\
    match rest with
    | EmptyString => True
    | String c _ => continuation c = false
    end.
Proof.
  destruct (str_take_spec s n) as (rest & Heq & Hrest & Hlen).
  exists (str_take n s), rest. cbn [slice_to]. repeat split; assumption.
Qed.

(** A [mensaje] that is present and is neither a text nor a list (a
    number, [null], a mapping) makes the slice of the log line raise:
    the request ends in the 500 of the [except] clause before the engine
    is called, although nothing but the log line reads [mensaje]. *)
Theorem chat_mensaje_not_sliceable (pf : Platform) (st : State) (llm : Llama)
    (now data : string) (d dc : list (string * pyval)) (m : pyval) (mt : Z) :
  error_set st = false ->
  _LLM st = Some llm ->
  json_loads pf data = Some (PDict d) ->
  lookup "context" d = Some (PDict dc) ->
  lookup "mensaje" dc = Some m ->
  (forall s, m <> PStr s) ->
  (forall l, m <> PList l) ->
  int pf (get_default d "max_tokens" (PInt 300)) = Ok mt ->
  exists e,
    slice_to m 50 = Raise e /\
    chat pf st now data = ([EvGetJson data], processing_error pf e) /\
    (exn_class pf e = "TypeError" \/ exn_class pf e = "KeyError").
Proof.
  intros Herr Hllm Hload Hctx Hm Hnstr Hnlist Hint.
  assert (Hslice : exists e, slice_to m 50 = Raise e /\
                     (exn_class pf e = "TypeError" \/ exn_class pf e = "KeyError")).
  { destruct m as [|b|z|f|s|l|dm]; cbn;
      try (eexists; split; [reflexivity|left; reflexivity]).
    - contradiction (Hnstr s). reflexivity.
    - contradiction (Hnlist l). reflexivity.
    - eexists. split; [reflexivity|]. cbn. destruct (slice_hashable pf); auto. }
  destruct Hslice as (e & Hslice & Hclass). exists e.
  split; [exact Hslice|]. split; [|exact Hclass].
  apply (chat_locals_raise pf st llm now data (PDict d) e Herr Hllm Hload).
  unfold locals. cbn [get]. rewrite Hint.
  unfold get_default at 1. rewrite Hctx. cbn [get].
  unfold get_default. rewrite Hm, Hslice. reflexivity.
Qed.

Lemma chat_mensaje_not_sliceable_witness :
  lookup "mensaje" [ ("mensaje", PInt 5) ] = Some (PInt 5) /\
  exists e,
    slice_to (PInt 5) 50 = Raise e /\
    chat (with_json_loads pf_ready
            (always (PDict [ ("context", PDict [ ("mensaje", PInt 5) ]) ])))
         (ready_state (Ok riega)) t0 "" =
      ([EvGetJson ""],
       processing_error
         (with_json_loads pf_ready
            (always (PDict [ ("context", PDict [ ("mensaje", PInt 5) ]) ]))) e) /\
    (exn_class
       (with_json_loads pf_ready
          (always (PDict [ ("context", PDict [ ("mensaje", PInt 5) ]) ]))) e = "TypeError" \/
     exn_class
       (with_json_loads pf_ready
          (always (PDict [ ("context", PDict [ ("mensaje", PInt 5) ]) ]))) e = "KeyError").
Proof.
  split; [reflexivity|].
  apply (chat_mensaje_not_sliceable
           (with_json_loads pf_ready
              (always (PDict [ ("context", PDict [ ("mensaje", PInt 5) ]) ])))
           (ready_state (Ok riega)) (stub_llm (Ok riega)) t0 ""
           [ ("context", PDict [ ("mensaje", PInt 5) ]) ]
           [ ("mensaje", PInt 5) ] (PInt 5) 300);
    try reflexivity; intros; discriminate.
Defined.

(** After an engine call that returned, the answer of the engine is read
    with plain subscripts: an answer without [choices] ends in a 500 of
    type [KeyError], an answer whose [choices] is the empty list in a
    500 of type [IndexError], an answer that is [None] in a 500 of type
    [TypeError]. *)
Theorem chat_answer_without_choice (pf : Platform) (st : State) (llm : Llama)
    (now data : string) (msgs : pyval) (temp : pyfloat) (mt : Z) (response : pyval) :
  _LLM st = Some llm ->
  In (EvChatCompletion msgs temp mt) (fst (chat pf st now data)) ->
  create_chat_completion llm msgs temp mt = Ok response ->
  (forall entries,
     response = PDict entries -> lookup "choices" entries = None ->
     snd (chat pf st now data) =
       processing_error pf (Builtin (MissingKey (PStr "choices"))) /\
     field "type" (body (snd (chat pf st now data))) = Some (PStr "KeyError")) /\
  (forall entries,
     response = PDict entries -> lookup "choices" entries = Some (PList []) ->
     snd (chat pf st now data) =
       processing_error pf (Builtin (IndexOutOfRange (PList []))) /\
     field "type" (body (snd (chat pf st now data))) = Some (PStr "IndexError")) /\
  (response = PNone ->
     snd (chat pf st now data) =
       processing_error pf (Builtin (NotSubscriptable PNone)) /\
     field "type" (body (snd (chat pf st now data))) = Some (PStr "TypeError")).
Proof.
  intros Hllm Hin Hresp.
  destruct (engine_call_inv pf st llm now data msgs temp mt Hllm Hin)
    as (payload & sp & ctx & _ & _ & _ & _ & Hchat).
  rewrite Hchat, Hresp. cbn [snd]. unfold respond, first_message.
  split; [|split].
  - intros entries -> Hnone. cbn [getitem]. rewrite Hnone. split; reflexivity.
  - intros entries -> Hempty. cbn [getitem]. rewrite Hempty. split; reflexivity.
  - intros ->. split; reflexivity.
Qed.

Lemma chat_answer_without_choice_witness :
  create_chat_completion (stub_llm (Ok (PDict [ ("choices", PList []) ])))
    (messages pf_ready (PStr default_system) (PDict [])) temperature 300 =
    Ok (PDict [ ("choices", PList []) ]) /\
  snd (chat pf_ready (ready_state (Ok (PDict [ ("choices", PList []) ]))) t0 "{}") =
    processing_error pf_ready (Builtin (IndexOutOfRange (PList []))).
Proof.
  split; [reflexivity|].
  refine (proj1 (proj1 (proj2
    (chat_answer_without_choice pf_ready
       (ready_state (Ok (PDict [ ("choices", PList []) ])))
       (stub_llm (Ok (PDict [ ("choices", PList []) ]))) t0 "{}"
       (messages pf_ready (PStr default_system) (PDict [])) temperature 300
       (PDict [ ("choices", PList []) ]) eq_refl _ eq_refl))
    [ ("choices", PList []) ] eq_refl eq_refl)).
  cbn. right. left. reflexivity.
Defined.

(** The [content] of the first choice, once read: any false value
    (zero, [false], an empty text, list or mapping, as well as [None])
    is replaced by the empty text and the answer is a 200; a true value
    that has a length is returned as it is; a true value without a length
    (a number, [true]) makes [len] raise and the answer is a 500 of type
    [TypeError]. *)
Theorem content_by_truth (pf : Platform) (st : State) (llm : Llama)
    (now data : string) (msgs : pyval) (temp : pyfloat) (mt : Z)
    (response message c : pyval) :
  _LLM st = Some llm ->
  In (EvChatCompletion msgs temp mt) (fst (chat pf st now data)) ->
  create_chat_completion llm msgs temp mt = Ok response ->
  first_message response = Ok message ->
  getitem message "content" = Ok c ->
  (truthy c = false -> snd (chat pf st now data) = chat_ok (PStr "") now) /\
  (truthy c = true -> forall n,
     len c = Ok n -> snd (chat pf st now data) = chat_ok c now) /\
  (truthy c = true -> forall e,
     len c = Raise e ->
     snd (chat pf st now data) = processing_error pf (Builtin (NoLen c)) /\
     field "type" (body (snd (chat pf st now data))) = Some (PStr "TypeError")).
Proof.
  intros Hllm Hin Hresp Hmsg Hc.
  destruct (engine_call_inv pf st llm now data msgs temp mt Hllm Hin)
    as (payload & sp & ctx & _ & _ & _ & _ & Hchat).
  rewrite Hchat, Hresp. cbn [snd]. unfold respond. rewrite Hmsg, Hc. unfold py_or.
  split; [|split].
  - intros ->. reflexivity.
  - intros -> n ->. reflexivity.
  - intros -> e He. rewrite He.
    assert (e = Builtin (NoLen c)) as ->.
    { destruct c; cbn in He; try discriminate He; injection He as <-; reflexivity. }
    split; reflexivity.
Qed.

Lemma content_by_truth_witness :
  getitem (PDict [ ("role", PStr "assistant"); ("content", PInt 0) ]) "content" =
    Ok (PInt 0) /\
  snd (chat pf_ready
         (ready_state (Ok (completion_of [ ("role", PStr "assistant");
                                           ("content", PInt 0) ])))
         t0 "{}") = chat_ok (PStr "") t0.
Proof.
  split; [reflexivity|].
  refine (proj1
    (content_by_truth pf_ready
       (ready_state (Ok (completion_of [ ("role", PStr "assistant");
                                         ("content", PInt 0) ])))
       (stub_llm (Ok (completion_of [ ("role", PStr "assistant");
                                      ("content", PInt 0) ])))
       t0 "{}"
       (messages pf_ready (PStr default_system) (PDict [])) temperature 300
       (completion_of [ ("role", PStr "assistant"); ("content", PInt 0) ])
       (PDict [ ("role", PStr "assistant"); ("content", PInt 0) ])
       (PInt 0) eq_refl _ eq_refl eq_refl eq_refl) eq_refl).
  cbn. right. left. reflexivity.
Defined.

(** ** The paths that leave early *)

(** When the test of the model file itself raises (the path cannot be
    examined), [load_model()] does not return: the exception leaves it,
    since line 36 is outside the [try]; the constructor is not called,
    nothing is recorded, and both globals stay as they were, unset at
    startup. The script then dies before reading the port. *)
Theorem load_model_exists_raises (pf : Platform) (cfg : Config) (st : State) (e : exn) :
  path_exists pf (MODEL_PATH cfg) = Raise e ->
  load_model pf cfg st = ([], (Raise e, st)) /\
  loaded pf cfg st = st /\
  _LLM (loaded pf cfg initial_state) = None /\
  _MODEL_ERROR (loaded pf cfg initial_state) = None /\
  forall env, main pf cfg env = ([], Died e).
Proof.
  intros Hp. unfold loaded.
  rewrite !(load_model_eq_exists_raises pf cfg _ e Hp). cbn [fst snd].
  repeat split. intros env. exact (main_exists_raises pf cfg env e Hp).
Qed.

Lemma load_model_exists_raises_witness :
  path_exists pf_denied (MODEL_PATH toy_cfg) =
    Raise (Raised "PermissionError" "[Errno 13] Permission denied") /\
  load_model pf_denied toy_cfg initial_state =
    ([], (Raise (Raised "PermissionError" "[Errno 13] Permission denied"),
          initial_state)).
Proof.
  split; [reflexivity|].
  apply (load_model_exists_raises pf_denied toy_cfg initial_state
           (Raised "PermissionError" "[Errno 13] Permission denied")).
  reflexivity.
Defined.


